(** * archinstall: network configuration parsing and subvolume editing

    A shallow embedding of

    - [archinstall/lib/models/network_configuration.py]
      ([NicType], [NetworkConfiguration] with [json],
      [parse_arguments], [is_iso], [is_network_manager], [is_manual],
      [config_installer], [get], [__getitem__]), and
    - [archinstall/lib/user_interaction/subvolume_config.py]
      ([SubvolumeList.reformat], [SubvolumeList.exec_action],
      [SubvolumeMenu.__init__], [SubvolumeMenu.exit_callback]),

    followed by the properties of these functions.

    Python values are the JSON-shaped values the installer reads from its
    configuration files.  A mapping whose entry order is never observed (the
    network configuration, the value of one subvolume) is a [gmap]; the
    subvolume collection and the target handed to the editor are read with
    [list(d.items())[0]], so they keep their insertion order and are
    association lists. *)

From Stdlib Require Import ZArith String Bool.
From stdpp Require Import gmap strings list fin_maps sorting.

Local Open Scope string_scope.
Local Set Warnings "-register-all".

(** ** Python values *)

(** [class NicType(str, Enum)] *)
Inductive NicType : Type := ISO | NM | MANUAL.

(** The [value] of an enumeration member. *)
Definition NicType_value (t : NicType) : string :=
  match t with
  | ISO => "iso"
  | NM => "nm"
  | MANUAL => "manual"
  end.

(** Iterating over the class, [for e in NicType], follows definition order. *)
Definition NicType_members : list NicType := [ISO; NM; MANUAL].

Inductive PyVal : Type :=
| VNone
| VBool (b : bool)
| VInt (n : Z)                        (* a number; only tested for zero *)
| VStr (s : string)
| VEnum (t : NicType)                 (* a member of NicType, itself a str *)
| VList (l : list PyVal)
| VDict (d : gmap string PyVal).

(** Truth value testing: [None], [False], zero, and empty strings, lists
    and mappings are false.  An enumeration member mixed with [str] follows
    the rule of [str], and no member has an empty value. *)
Definition truthy (v : PyVal) : bool :=
  match v with
  | VNone => false
  | VBool b => b
  | VInt n => negb (n =? 0)%Z
  | VStr s => negb (String.eqb s "")
  | VEnum t => negb (String.eqb (NicType_value t) "")
  | VList l => match l with [] => false | _ :: _ => true end
  | VDict d => negb (bool_decide (d = ∅))
  end.

(** [isinstance(v, str)] *)
Definition isinstance_str (v : PyVal) : bool :=
  match v with
  | VStr _ | VEnum _ => true
  | _ => false
  end.

(** ** Outcomes of a call *)

Inductive PyExn : Type := AttributeError | KeyError | TypeError | ValueError.

(** One call of [log]: the message is [template] formatted with [args]. *)
Record LogLine : Type := mkLogLine {
  template : string;
  args : list PyVal;
  fg : string
}.

(** A call returns, raises, or ends the process with [exit(status)] after
    the line it logged. *)
Inductive Outcome (A : Type) : Type :=
| Return (a : A)
| Raise (e : PyExn)
| Exit (logged : LogLine) (status : Z).

Arguments Return {A} a.
Arguments Raise {A} e.
Arguments Exit {A} logged status.

Definition outcome_bind {A B : Type} (f : A -> Outcome B) (m : Outcome A)
  : Outcome B :=
  match m with
  | Return a => f a
  | Raise e => Raise e
  | Exit l s => Exit l s
  end.

#[global] Instance outcome_ret : MRet Outcome := fun A a => Return a.
#[global] Instance outcome_mbind : MBind Outcome := fun A B f m => outcome_bind f m.

(** [try: body  except exn: handler] *)
Definition try_except {A : Type} (body : Outcome A) (exn : PyExn)
    (handler : Outcome A) : Outcome A :=
  match body with
  | Raise e =>
      match e, exn with
      | AttributeError, AttributeError | KeyError, KeyError
      | TypeError, TypeError | ValueError, ValueError => handler
      | _, _ => Raise e
      end
  | r => r
  end.

(** ** Operations on values *)

(** [config.get(key, dflt)]: only a mapping has the method. *)
Definition py_get (config : PyVal) (key : string) (dflt : PyVal)
  : Outcome PyVal :=
  match config with
  | VDict d => Return (default dflt (d !! key))
  | _ => Raise AttributeError
  end.

(** [container[key]] for a string [key]: a mapping answers for its keys;
    what is not a mapping takes no string subscript. *)
Definition py_getitem (container : PyVal) (key : string) : Outcome PyVal :=
  match container with
  | VDict d =>
      match d !! key with
      | Some v => Return v
      | None => Raise KeyError
      end
  | _ => Raise TypeError
  end.

(** [v == key] for a string [key]. *)
Definition py_eq_str (v : PyVal) (key : string) : bool :=
  match v with
  | VStr s => String.eqb s key
  | VEnum t => String.eqb (NicType_value t) key
  | _ => false
  end.

(** [key in container]: a key of a mapping, a substring of a string, an
    element of a list; other values are not iterable. *)
Definition py_in (key : string) (container : PyVal) : Outcome bool :=
  match container with
  | VDict d => Return (bool_decide (is_Some (d !! key)))
  | VStr s => Return (bool_decide (is_Some (String.index 0 key s)))
  | VEnum t =>
      Return (bool_decide (is_Some (String.index 0 key (NicType_value t))))
  | VList l => Return (existsb (fun v => py_eq_str v key) l)
  | _ => Raise TypeError
  end.

(** [NicType(v)]: lookup of a member by value; a member is returned as it
    is; anything else is a [ValueError]. *)
Definition NicType_call (v : PyVal) : Outcome NicType :=
  match v with
  | VEnum t => Return t
  | VStr s =>
      match List.find (fun t => String.eqb (NicType_value t) s) NicType_members with
      | Some t => Return t
      | None => Raise ValueError
      end
  | _ => Raise ValueError
  end.

(** ** network_configuration.py *)

Module NetworkConfiguration.

(** The dataclass.  A field holds whatever value the configuration gave. *)
Record t : Type := mk {
  type : NicType;
  iface : PyVal;
  ip : PyVal;
  dhcp : bool;
  gateway : PyVal;
  dns : PyVal
}.

(** [NetworkConfiguration(type)] with the defaults of the dataclass. *)
Definition new (ty : NicType) : t :=
  {| type := ty; iface := VNone; ip := VNone; dhcp := true;
     gateway := VNone; dns := VNone |}.

Definition is_iso (self : t) : bool :=
  match type self with ISO => true | _ => false end.

Definition is_network_manager (self : t) : bool :=
  match type self with NM => true | _ => false end.

Definition is_manual (self : t) : bool :=
  match type self with MANUAL => true | _ => false end.

(** [json]: the instance dictionary. *)
Definition json (self : t) : PyVal :=
  VDict (list_to_map
    [ ("type", VEnum (type self));
      ("iface", iface self);
      ("ip", ip self);
      ("dhcp", VBool (dhcp self));
      ("gateway", gateway self);
      ("dns", dns self) ]).

Definition __getitem__ (self : t) (key : string) : Outcome PyVal :=
  if String.eqb key "type" then Return (VEnum (type self))
  else if String.eqb key "iface" then Return (iface self)
  else if String.eqb key "gateway" then Return (gateway self)
  else if String.eqb key "dns" then Return (dns self)
  else if String.eqb key "dhcp" then Return (VBool (dhcp self))
  else Raise KeyError.

Definition get (self : t) (key : string) (default_value : PyVal)
  : Outcome PyVal :=
  result ← __getitem__ self key;
  match result with
  | VNone => Return default_value
  | _ => Return result
  end.

(** The methods of the installer that [config_installer] calls. *)
Inductive InstallerCall : Type :=
| copy_iso_network_config (enable_services : bool)
| add_additional_packages (package : string)
| enable_service (service : string)
| configure_nic (nic : t).

(** [config_installer]: the calls made on [installation], in order (each
    call taken to return). *)
Definition config_installer (self : t) : list InstallerCall :=
  if is_iso self then [copy_iso_network_config true]
  else if is_network_manager self then
    [add_additional_packages "networkmanager";
     enable_service "NetworkManager.service"]
  else if is_manual self then
    [configure_nic self;
     enable_service "systemd-networkd";
     enable_service "systemd-resolved"]
  else [].

Section Parse.

(** The translation function [_] installed by the package. *)
Variable gettext : string -> string.

Definition unknown_type_line (nic_type : PyVal) : LogLine :=
  let options := List.map (fun e => VStr (NicType_value e)) NicType_members in
  {| template := gettext "Unknown nic type: {}. Possible values are {}";
     args := [nic_type; VList options];
     fg := "red" |}.

Definition missing_ip_line : LogLine :=
  {| template :=
       "Manual nic configuration with no auto DHCP requires an IP address";
     args := [];
     fg := "red" |}.

Definition parse_arguments (config : PyVal) : Outcome (option t) :=
  nic_type ← py_get config "type" VNone;
  if negb (truthy nic_type) then
    (* old style definitions *)
    if isinstance_str config then Return (Some (new ISO))
    else
      nm ← py_get config "NetworkManager" VNone;
      if truthy nm then Return (Some (new NM))
      else
        has_ip ← py_in "ip" config;
        if has_ip : bool then
          nic ← py_get config "nic" (VStr "");
          addr ← py_get config "ip" VNone;
          gw ← py_get config "gateway" (VStr "");
          servers ← py_get config "dns" (VList []);
          Return (Some {| type := MANUAL; iface := nic; ip := addr;
                          gateway := gw; dns := servers; dhcp := false |})
        else
          has_nic ← py_in "nic" config;
          if has_nic : bool then
            nic ← py_get config "nic" (VStr "");
            Return (Some {| type := MANUAL; iface := nic; ip := VNone;
                            gateway := VNone; dns := VNone; dhcp := true |})
          else Return None
  else
    ty ← try_except (NicType_call nic_type) ValueError
           (Exit (unknown_type_line nic_type) 1);
    match ty with
    | MANUAL =>
        use_dhcp ← py_get config "dhcp" (VBool false);
        (* [dhcp or not any([...])]: [or] evaluates its right operand only
           when the left one is false *)
        automatic ← (if truthy use_dhcp then Return true
                     else
                       signals ← mapM (fun v => py_get config v VNone)
                                      ["ip"; "gateway"; "dns"];
                       Return (negb (existsb truthy signals)));
        if automatic : bool then
          nic ← py_get config "iface" (VStr "");
          Return (Some {| type := ty; iface := nic; ip := VNone;
                          gateway := VNone; dns := VNone; dhcp := true |})
        else
          addr ← py_get config "ip" (VStr "");
          if negb (truthy addr) then Exit missing_ip_line 1
          else
            nic ← py_get config "iface" (VStr "");
            gw ← py_get config "gateway" (VStr "");
            servers ← py_get config "dns" (VList []);
            Return (Some {| type := ty; iface := nic; ip := addr;
                            gateway := gw; dns := servers; dhcp := false |})
    | _ => Return (Some (new ty))
    end.

End Parse.

End NetworkConfiguration.


(** ** Insertion-ordered dictionaries

    [dict] as the subvolume editor uses it: string keys, entries in insertion
    order. *)

Abbreviation odict := (list (string * PyVal)).

(** [d.get(k)] *)
Fixpoint od_get (k : string) (d : odict) : option PyVal :=
  match d with
  | [] => None
  | (k', v) :: d' => if String.eqb k' k then Some v else od_get k d'
  end.

(** [d[k] = v]: an existing key keeps its place, a new one goes last. *)
Fixpoint od_set (k : string) (v : PyVal) (d : odict) : odict :=
  match d with
  | [] => [(k, v)]
  | (k', v') :: d' =>
      if String.eqb k' k then (k', v) :: d' else (k', v') :: od_set k v d'
  end.

(** [del d[k]]; [None] stands for the [KeyError] of a missing key. *)
Fixpoint od_del (k : string) (d : odict) : option odict :=
  match d with
  | [] => None
  | (k', v') :: d' =>
      if String.eqb k' k then Some d'
      else match od_del k d' with
           | Some r => Some ((k', v') :: r)
           | None => None
           end
  end.

(** [d.update(other)] *)
Definition od_update (d other : odict) : odict :=
  fold_left (fun acc kv => od_set (fst kv) (snd kv) acc) other d.

(** [list(d)]: the keys, in order. *)
Definition od_keys (d : odict) : list string := List.map fst d.

(** [d[k]] *)
Definition od_getitem (d : odict) (k : string) : Outcome PyVal :=
  match od_get k d with
  | Some v => Return v
  | None => Raise KeyError
  end.

(** [s * n] *)
Fixpoint py_repeat (s : string) (n : nat) : string :=
  match n with
  | O => ""
  | S n' => s +:+ py_repeat s n'
  end.

(** ** subvolume_config.py *)

Module SubvolumeMenu.

(** [self.ds]: the scratch record.  [name] is [None] or a string (a key of
    the target, or what the text prompt returned). *)
Record DataStore : Type := mkDataStore {
  name : option string;
  mountpoint : PyVal;
  options : PyVal
}.

(** The menu object.  [data] is the [parameters] argument, shared with the
    caller ([None] when the caller had no target).  [cancel_selection] is
    what [self.option(self.cancel_action).get_selection()] reads: the
    selection the menu framework keeps for the entry [cancel]. *)
Record t : Type := mk {
  data : option odict;
  action : option string;
  ds : DataStore;
  cancel_selection : PyVal
}.

(** [__init__(self, parameters, action)] *)
Definition __init__ (parameters : option odict) (act : option string)
  : Outcome t :=
  store ←
    match parameters with
    | Some ((origkey, origval) :: _) =>
        if isinstance_str origval then
          Return {| name := Some origkey; mountpoint := origval;
                    options := VNone |}
        else
          mp ← py_get origval "mountpoint" VNone;
          opts ← py_get origval "options" VNone;
          Return {| name := Some origkey; mountpoint := mp; options := opts |}
    | _ => Return {| name := None; mountpoint := VNone; options := VNone |}
    end;
  Return {| data := parameters; action := act; ds := store;
            cancel_selection := VNone |}.

(** [not self.ds['name']] is false exactly for a string that is not empty. *)
Definition name_given (n : option string) : bool :=
  match n with
  | Some s => negb (String.eqb s "")
  | None => false
  end.

(** The [value] that [exit_callback] builds from the scratch record. *)
Definition value_of (store : DataStore) : gmap string PyVal :=
  let value : gmap string PyVal := ∅ in
  let value :=
    if truthy (mountpoint store) then <["mountpoint" := mountpoint store]> value
    else value in
  let value :=
    if truthy (options store) then <["options" := options store]> value
    else value in
  value.

Definition exit_callback (self : t) : Outcome t :=
  (* we exit without moving data *)
  if truthy (cancel_selection self) then Return self
  else if negb (name_given (name (ds self))) then Return self
  else
    match name (ds self), data self with
    | Some key, Some d =>
        Return {| data := Some (od_update d [(key, VDict (value_of (ds self)))]);
                  action := action self; ds := ds self;
                  cancel_selection := cancel_selection self |}
    | _, _ => Raise AttributeError   (* [None] has no [update] *)
    end.

End SubvolumeMenu.

Module SubvolumeList.

(** The fields of the list manager that [exec_action] reads and writes. *)
Record t : Type := mk {
  data : odict;
  target : option odict;
  action : option string
}.

(** [self.action == str(_(label))] *)
Definition action_is (act : option string) (label : string) : bool :=
  match act with
  | Some a => String.eqb a label
  | None => false
  end.

Section Exec.

Variable gettext : string -> string.

(** What the user does between the creation of the menu and its exit: the
    scratch record and the selection of [cancel] as the prompts left them. *)
Variable session : SubvolumeMenu.t -> SubvolumeMenu.DataStore * PyVal.

(** The menu from its creation on [parameters] to the end of
    [exit_callback]; the result is the dictionary [parameters] afterwards. *)
Definition edit (parameters : option odict) (act : option string)
  : Outcome (option odict) :=
  menu ← SubvolumeMenu.__init__ parameters act;
  let '(store, cancel) := session menu in
  menu' ← SubvolumeMenu.exit_callback
            {| SubvolumeMenu.data := SubvolumeMenu.data menu;
               SubvolumeMenu.action := SubvolumeMenu.action menu;
               SubvolumeMenu.ds := store;
               SubvolumeMenu.cancel_selection := cancel |};
  Return (SubvolumeMenu.data menu').

(** [exec_action]: the outcome and the list manager afterwards. *)
Definition exec_action (self : t) : Outcome bool * t :=
  let origkey :=
    match target self with
    | Some ((k, _) :: _) => Some k
    | _ => None
    end in
  if action_is (action self) (gettext "Delete") then
    (* [del self.data[origkey]]; the key [None] is in no collection *)
    match origkey ≫= (fun k => od_del k (data self)) with
    | Some d' =>
        (Return true, {| data := d'; target := target self; action := action self |})
    | None => (Raise KeyError, self)
    end
  else
    let self1 :=
      if action_is (action self) (gettext "Add") then
        {| data := data self; target := Some []; action := action self |}
      else self in
    match edit (target self1) (action self1) with
    | Return tgt =>
        let self2 := {| data := data self1; target := tgt; action := action self1 |} in
        match tgt with
        | Some entries =>
            (Return true,
             {| data := od_update (data self2) entries; target := tgt;
                action := action self2 |})
        | None => (Raise TypeError, self2)   (* [update(None)] *)
        end
    | Raise e => (Raise e, self1)
    | Exit l c => (Exit l c, self1)
    end.

End Exec.

Section Reformat.

Variable gettext : string -> string.

(** [template.format(arg)] and [sep.join(iterable)]: builtins, taken as
    they come; either may raise. *)
Variable format : string -> PyVal -> Outcome string.
Variable join : string -> PyVal -> Outcome string.

Definition presentation (key : string) (value : PyVal) : Outcome string :=
  text ← format (gettext " Subvolume :{:16}") (VStr key);
  if isinstance_str value then
    mounted ← format (gettext " mounted at {:16}") value;
    Return (text +:+ mounted)
  else
    mp ← py_get value "mountpoint" VNone;
    text ← (if truthy mp then
              at_key ← py_getitem value "mountpoint";
              mounted ← format (gettext " mounted at {:16}") at_key;
              Return (text +:+ mounted)
            else Return (text +:+ py_repeat " " 28));
    opts ← py_get value "options" (VList []);
    if truthy opts then
      at_key ← py_getitem value "options";
      joined ← join ", " at_key;
      listed ← format (gettext " with option {}") (VStr joined);
      Return (text +:+ listed)
    else Return text.

(** [sorted(list(map(lambda x: presentation(x, self.data[x]), self.data)))];
    strings are ordered by their code points. *)
Definition reformat (self : t) : Outcome (list string) :=
  lines ← mapM (fun x => value ← od_getitem (data self) x; presentation x value)
               (od_keys (data self));
  Return (merge_sort String.le lines).

End Reformat.

End SubvolumeList.

(** ** Vocabulary of the specification *)

(** A field of a mapping is truthy when it is present with a truthy value. *)
Definition truthy_field (d : gmap string PyVal) (key : string) : bool :=
  match d !! key with
  | Some v => truthy v
  | None => false
  end.

(** Following the specification (4.1, step 1): the ordered rules for a
    mapping that carries no type, first match wins. *)
Definition legacy_resolution (d : gmap string PyVal)
  : option NetworkConfiguration.t :=
  if truthy_field d "NetworkManager" then
    Some (NetworkConfiguration.new NM)
  else
    match d !! "ip", d !! "nic" with
    | Some a, _ =>
        Some {| NetworkConfiguration.type := MANUAL;
                NetworkConfiguration.iface := default (VStr "") (d !! "nic");
                NetworkConfiguration.ip := a;
                NetworkConfiguration.dhcp := false;
                NetworkConfiguration.gateway := default (VStr "") (d !! "gateway");
                NetworkConfiguration.dns := default (VList []) (d !! "dns") |}
    | None, Some n =>
        Some {| NetworkConfiguration.type := MANUAL;
                NetworkConfiguration.iface := n;
                NetworkConfiguration.ip := VNone;
                NetworkConfiguration.dhcp := true;
                NetworkConfiguration.gateway := VNone;
                NetworkConfiguration.dns := VNone |}
    | None, None => None
    end.

(** [v] unless it is [None], and then [dflt]. *)
Definition or_default (v dflt : PyVal) : PyVal :=
  match v with
  | VNone => dflt
  | _ => v
  end.

(** The keys that [__getitem__] answers. *)
Definition readable_keys : list string :=
  ["type"; "iface"; "gateway"; "dns"; "dhcp"].

(** A session in which the user changes nothing. *)
Definition untouched (menu : SubvolumeMenu.t) : SubvolumeMenu.DataStore * PyVal :=
  (SubvolumeMenu.ds menu, SubvolumeMenu.cancel_selection menu).

(** The session on [menu] ends with Cancel selected or without a name. *)
Definition aborts
    (session : SubvolumeMenu.t -> SubvolumeMenu.DataStore * PyVal)
    (menu : SubvolumeMenu.t) : Prop :=
  truthy (snd (session menu)) = true
  ∨ SubvolumeMenu.name_given (SubvolumeMenu.name (fst (session menu))) = false.

(** A session in which the prompts leave [store] and Cancel is not chosen. *)
Definition answers (store : SubvolumeMenu.DataStore)
  : SubvolumeMenu.t -> SubvolumeMenu.DataStore * PyVal :=
  fun _ => (store, VNone).

(** A session in which the prompts leave [store] and Cancel is chosen. *)
Definition cancelled (store : SubvolumeMenu.DataStore)
  : SubvolumeMenu.t -> SubvolumeMenu.DataStore * PyVal :=
  fun _ => (store, VBool true).

(** A session that only sets the mountpoint. *)
Definition remount (mp : PyVal)
  : SubvolumeMenu.t -> SubvolumeMenu.DataStore * PyVal :=
  fun menu =>
    ({| SubvolumeMenu.name := SubvolumeMenu.name (SubvolumeMenu.ds menu);
        SubvolumeMenu.mountpoint := mp;
        SubvolumeMenu.options := SubvolumeMenu.options (SubvolumeMenu.ds menu) |},
     VNone).

(** The two records a mapping of type manual can give. *)
Definition automatic_record (nic : PyVal) : NetworkConfiguration.t :=
  {| NetworkConfiguration.type := MANUAL;
     NetworkConfiguration.iface := nic;
     NetworkConfiguration.ip := VNone;
     NetworkConfiguration.dhcp := true;
     NetworkConfiguration.gateway := VNone;
     NetworkConfiguration.dns := VNone |}.

Definition static_record (nic addr gw servers : PyVal) : NetworkConfiguration.t :=
  {| NetworkConfiguration.type := MANUAL;
     NetworkConfiguration.iface := nic;
     NetworkConfiguration.ip := addr;
     NetworkConfiguration.dhcp := false;
     NetworkConfiguration.gateway := gw;
     NetworkConfiguration.dns := servers |}.

(** What [parse_arguments] does with a mapping whose type is manual. *)
Definition manual_resolution (d : gmap string PyVal)
  : Outcome (option NetworkConfiguration.t) :=
  if truthy_field d "dhcp"
     || negb (truthy_field d "ip" || truthy_field d "gateway"
              || truthy_field d "dns")
  then Return (Some (automatic_record (default (VStr "") (d !! "iface"))))
  else if truthy_field d "ip" then
    Return (Some (static_record (default (VStr "") (d !! "iface"))
                                (default (VStr "") (d !! "ip"))
                                (default (VStr "") (d !! "gateway"))
                                (default (VList []) (d !! "dns"))))
  else Exit NetworkConfiguration.missing_ip_line 1.

(** What [parse_arguments] does with a mapping whose type [v] is truthy. *)
Definition typed_resolution (gettext : string -> string)
    (d : gmap string PyVal) (v : PyVal)
  : Outcome (option NetworkConfiguration.t) :=
  match NicType_call v with
  | Return MANUAL => manual_resolution d
  | Return ty => Return (Some (NetworkConfiguration.new ty))
  | _ => Exit (NetworkConfiguration.unknown_type_line gettext v) 1
  end.

(** Stand-ins for [format] and [join], to run [reformat] on examples: the
    argument is put after the template; the items of a list of strings are
    put one after the other. *)
Definition plain_format (template : string) (arg : PyVal) : Outcome string :=
  match arg with
  | VStr s => Return (template +:+ s)
  | _ => Raise TypeError
  end.

Definition plain_join (sep : string) (items : PyVal) : Outcome string :=
  match items with
  | VList l =>
      mapM (λ v, match v with VStr s => Return s | _ => Raise TypeError end) l
      ≫= λ parts, Return (String.concat sep parts)
  | _ => Raise TypeError
  end.

(** * Properties *)

(** ** The scenarios of the specification, run on the code *)

Example parse_manual_static_scenario :
  NetworkConfiguration.parse_arguments id
    (VDict (list_to_map
       [("type", VStr "manual"); ("iface", VStr "eth0");
        ("ip", VStr "192.168.1.50/24"); ("gateway", VStr "192.168.1.1");
        ("dns", VList [VStr "1.1.1.1"])]))
  = Return (Some {| NetworkConfiguration.type := MANUAL;
                    NetworkConfiguration.iface := VStr "eth0";
                    NetworkConfiguration.ip := VStr "192.168.1.50/24";
                    NetworkConfiguration.dhcp := false;
                    NetworkConfiguration.gateway := VStr "192.168.1.1";
                    NetworkConfiguration.dns := VList [VStr "1.1.1.1"] |}).
Proof. reflexivity. Qed.

Example parse_manual_dhcp_scenario :
  NetworkConfiguration.parse_arguments id
    (VDict (list_to_map
       [("type", VStr "manual"); ("dhcp", VBool true); ("iface", VStr "eth0")]))
  = Return (Some {| NetworkConfiguration.type := MANUAL;
                    NetworkConfiguration.iface := VStr "eth0";
                    NetworkConfiguration.ip := VNone;
                    NetworkConfiguration.dhcp := true;
                    NetworkConfiguration.gateway := VNone;
                    NetworkConfiguration.dns := VNone |}).
Proof. reflexivity. Qed.

Example parse_iso_nm_scenario :
  NetworkConfiguration.parse_arguments id
    (VDict (list_to_map [("type", VStr "iso"); ("ip", VStr "10.0.0.2/24")]))
  = Return (Some (NetworkConfiguration.new ISO))
  ∧ NetworkConfiguration.parse_arguments id
      (VDict (list_to_map [("type", VStr "nm")]))
    = Return (Some (NetworkConfiguration.new NM)).
Proof. split; reflexivity. Qed.

(** Add "root" mounted at "/", then edit it to "/mnt/root": one key. *)
Example subvolume_add_then_edit_scenario :
  let added : odict := [("root", VDict {[ "mountpoint" := VStr "/" ]})] in
  let edited : odict := [("root", VDict {[ "mountpoint" := VStr "/mnt/root" ]})] in
  SubvolumeList.exec_action id
    (answers {| SubvolumeMenu.name := Some "root";
                SubvolumeMenu.mountpoint := VStr "/";
                SubvolumeMenu.options := VNone |})
    {| SubvolumeList.data := []; SubvolumeList.target := None;
       SubvolumeList.action := Some "Add" |}
  = (Return true,
     {| SubvolumeList.data := added; SubvolumeList.target := Some added;
        SubvolumeList.action := Some "Add" |})
  ∧ SubvolumeList.exec_action id (remount (VStr "/mnt/root"))
      {| SubvolumeList.data := added; SubvolumeList.target := Some added;
         SubvolumeList.action := Some "Edit" |}
    = (Return true,
       {| SubvolumeList.data := edited; SubvolumeList.target := Some edited;
          SubvolumeList.action := Some "Edit" |}).
Proof. split; reflexivity. Qed.

(** ** Reading fields of a mapping *)

Lemma truthy_default_None (d : gmap string PyVal) (key : string) :
  truthy (default VNone (d !! key)) = truthy_field d key.
Proof. unfold truthy_field. now destruct (d !! key). Qed.

Lemma truthy_default_False (d : gmap string PyVal) (key : string) :
  truthy (default (VBool false) (d !! key)) = truthy_field d key.
Proof. unfold truthy_field. now destruct (d !! key). Qed.

Lemma truthy_default_empty (d : gmap string PyVal) (key : string) :
  truthy (default (VStr "") (d !! key)) = truthy_field d key.
Proof. unfold truthy_field. now destruct (d !! key). Qed.

Lemma truthy_field_delete (d : gmap string PyVal) (k key : string) :
  k ≠ key → truthy_field (delete k d) key = truthy_field d key.
Proof. intros Hne. unfold truthy_field. now rewrite lookup_delete_ne. Qed.

(** Unfolding of the monadic plumbing of [parse_arguments]. *)
Ltac parse_unfold :=
  unfold NetworkConfiguration.parse_arguments, py_get, py_in, try_except;
  cbn [mbind outcome_mbind outcome_bind mret outcome_ret isinstance_str mapM].

(** ** parse_arguments on a mapping without a usable type *)

Lemma parse_arguments_legacy (gettext : string -> string)
    (d : gmap string PyVal) :
  truthy_field d "type" = false →
  NetworkConfiguration.parse_arguments gettext (VDict d)
  = Return (legacy_resolution d).
Proof.
  intros Hty. parse_unfold.
  rewrite truthy_default_None, Hty. cbn [negb].
  rewrite truthy_default_None. unfold legacy_resolution.
  destruct (truthy_field d "NetworkManager"); [reflexivity|].
  destruct (d !! "ip") as [a|] eqn:Hip; cbn.
  - reflexivity.
  - destruct (d !! "nic") as [n|] eqn:Hnic; reflexivity.
Qed.

(** ** parse_arguments on a mapping of type manual *)

Lemma existsb_truthy_signals (d : gmap string PyVal) :
  existsb truthy
    [default VNone (d !! "ip"); default VNone (d !! "gateway");
     default VNone (d !! "dns")]
  = truthy_field d "ip" || truthy_field d "gateway" || truthy_field d "dns".
Proof.
  cbn [existsb]. rewrite !truthy_default_None.
  now rewrite orb_false_r, orb_assoc.
Qed.

Lemma parse_arguments_manual (gettext : string -> string)
    (d : gmap string PyVal) (v : PyVal) :
  d !! "type" = Some v →
  truthy v = true →
  NicType_call v = Return MANUAL →
  NetworkConfiguration.parse_arguments gettext (VDict d)
  = if truthy_field d "dhcp"
       || negb (truthy_field d "ip" || truthy_field d "gateway"
                || truthy_field d "dns")
    then
      Return (Some {| NetworkConfiguration.type := MANUAL;
                      NetworkConfiguration.iface := default (VStr "") (d !! "iface");
                      NetworkConfiguration.ip := VNone;
                      NetworkConfiguration.dhcp := true;
                      NetworkConfiguration.gateway := VNone;
                      NetworkConfiguration.dns := VNone |})
    else if truthy_field d "ip" then
      Return (Some {| NetworkConfiguration.type := MANUAL;
                      NetworkConfiguration.iface := default (VStr "") (d !! "iface");
                      NetworkConfiguration.ip := default (VStr "") (d !! "ip");
                      NetworkConfiguration.dhcp := false;
                      NetworkConfiguration.gateway := default (VStr "") (d !! "gateway");
                      NetworkConfiguration.dns := default (VList []) (d !! "dns") |})
    else Exit NetworkConfiguration.missing_ip_line 1.
Proof.
  intros Hty Htruthy Hcall. parse_unfold.
  rewrite Hty. cbn [default from_option id]. rewrite Htruthy. cbn [negb].
  rewrite Hcall. cbn [outcome_bind].
  rewrite truthy_default_False.
  destruct (truthy_field d "dhcp"); [reflexivity|].
  cbn [mapM mbind outcome_mbind outcome_bind mret outcome_ret orb].
  rewrite existsb_truthy_signals.
  destruct (truthy_field d "ip" || truthy_field d "gateway"
            || truthy_field d "dns"); [|reflexivity].
  cbn [negb]. rewrite truthy_default_empty.
  now destruct (truthy_field d "ip").
Qed.

(** ** C1 *)

(** C1.  The claim is that a bare string parses to an ISO configuration.
    The code reads [config.get('type', None)] before it tests
    [isinstance(config, str)], and a string has no method [get]: for every
    bare string the call raises [AttributeError] and returns nothing. *)
Theorem parse_arguments_bare_string_raises (gettext : string -> string)
    (s : string) :
  NetworkConfiguration.parse_arguments gettext (VStr s) = Raise AttributeError.
Proof. reflexivity. Qed.

(** ** C2 *)

(** C2.  A mapping with no [type] key is resolved by the first rule that
    applies: a truthy [NetworkManager] field gives kind NM whatever else is
    present; otherwise an [ip] key gives a manual record without DHCP,
    built from [nic] (default empty string), [ip], [gateway] (default empty
    string) and [dns] (default empty list); otherwise a [nic] key gives a
    manual record with DHCP on that interface; otherwise the result is
    [None], and no error. *)
Theorem parse_arguments_legacy_priority (gettext : string -> string)
    (d : gmap string PyVal) :
  d !! "type" = None →
  (truthy_field d "NetworkManager" = true →
     NetworkConfiguration.parse_arguments gettext (VDict d)
     = Return (Some {| NetworkConfiguration.type := NM;
                       NetworkConfiguration.iface := VNone;
                       NetworkConfiguration.ip := VNone;
                       NetworkConfiguration.dhcp := true;
                       NetworkConfiguration.gateway := VNone;
                       NetworkConfiguration.dns := VNone |}))
  ∧ (truthy_field d "NetworkManager" = false →
     ∀ a, d !! "ip" = Some a →
     NetworkConfiguration.parse_arguments gettext (VDict d)
     = Return (Some {| NetworkConfiguration.type := MANUAL;
                       NetworkConfiguration.iface := default (VStr "") (d !! "nic");
                       NetworkConfiguration.ip := a;
                       NetworkConfiguration.dhcp := false;
                       NetworkConfiguration.gateway := default (VStr "") (d !! "gateway");
                       NetworkConfiguration.dns := default (VList []) (d !! "dns") |}))
  ∧ (truthy_field d "NetworkManager" = false →
     d !! "ip" = None →
     ∀ n, d !! "nic" = Some n →
     NetworkConfiguration.parse_arguments gettext (VDict d)
     = Return (Some {| NetworkConfiguration.type := MANUAL;
                       NetworkConfiguration.iface := n;
                       NetworkConfiguration.ip := VNone;
                       NetworkConfiguration.dhcp := true;
                       NetworkConfiguration.gateway := VNone;
                       NetworkConfiguration.dns := VNone |}))
  ∧ (truthy_field d "NetworkManager" = false →
     d !! "ip" = None →
     d !! "nic" = None →
     NetworkConfiguration.parse_arguments gettext (VDict d) = Return None).
Proof.
  intros Hty.
  assert (Hleg : truthy_field d "type" = false)
    by (unfold truthy_field; now rewrite Hty).
  rewrite (parse_arguments_legacy gettext d Hleg). unfold legacy_resolution.
  repeat split.
  - intros ->. reflexivity.
  - intros -> a ->. reflexivity.
  - intros -> -> n ->. reflexivity.
  - intros -> -> ->. reflexivity.
Qed.

Lemma parse_arguments_legacy_priority_witness :
  let d : gmap string PyVal :=
    list_to_map [("NetworkManager", VBool false); ("ip", VStr "10.0.0.2/24");
                 ("nic", VStr "eth0")] in
  NetworkConfiguration.parse_arguments id (VDict d)
  = Return (Some {| NetworkConfiguration.type := MANUAL;
                    NetworkConfiguration.iface := VStr "eth0";
                    NetworkConfiguration.ip := VStr "10.0.0.2/24";
                    NetworkConfiguration.dhcp := false;
                    NetworkConfiguration.gateway := VStr "";
                    NetworkConfiguration.dns := VList [] |}).
Proof.
  intros d.
  exact (proj1 (proj2 (parse_arguments_legacy_priority id d eq_refl))
           eq_refl (VStr "10.0.0.2/24") eq_refl).
Defined.

(** ** C3 *)

(** C3.  For a mapping of type "manual" whose [dhcp] field is truthy, or in
    which none of [ip], [gateway], [dns] is truthy, the result is a manual
    record with DHCP and the interface of the [iface] field (default empty
    string).  So [dhcp=False] with no address data still gives DHCP, and a
    truthy [dhcp] wins over any address data. *)
Theorem parse_arguments_manual_dhcp (gettext : string -> string)
    (d : gmap string PyVal) :
  d !! "type" = Some (VStr "manual") →
  truthy_field d "dhcp" = true
  ∨ (truthy_field d "ip" = false ∧ truthy_field d "gateway" = false
     ∧ truthy_field d "dns" = false) →
  NetworkConfiguration.parse_arguments gettext (VDict d)
  = Return (Some {| NetworkConfiguration.type := MANUAL;
                    NetworkConfiguration.iface := default (VStr "") (d !! "iface");
                    NetworkConfiguration.ip := VNone;
                    NetworkConfiguration.dhcp := true;
                    NetworkConfiguration.gateway := VNone;
                    NetworkConfiguration.dns := VNone |}).
Proof.
  intros Hty Hcase.
  rewrite (parse_arguments_manual gettext d _ Hty eq_refl eq_refl).
  destruct Hcase as [-> | (-> & -> & ->)]; [reflexivity|].
  now rewrite orb_true_r.
Qed.

Lemma parse_arguments_manual_dhcp_witness :
  let explicit_off : gmap string PyVal :=
    list_to_map [("type", VStr "manual"); ("dhcp", VBool false);
                 ("iface", VStr "eth0")] in
  let explicit_on : gmap string PyVal :=
    list_to_map [("type", VStr "manual"); ("dhcp", VBool true);
                 ("ip", VStr "10.0.0.2/24"); ("gateway", VStr "10.0.0.1")] in
  let automatic (nic : PyVal) :=
    Return (Some {| NetworkConfiguration.type := MANUAL;
                    NetworkConfiguration.iface := nic;
                    NetworkConfiguration.ip := VNone;
                    NetworkConfiguration.dhcp := true;
                    NetworkConfiguration.gateway := VNone;
                    NetworkConfiguration.dns := VNone |}) in
  NetworkConfiguration.parse_arguments id (VDict explicit_off)
  = automatic (VStr "eth0")
  ∧ NetworkConfiguration.parse_arguments id (VDict explicit_on)
    = automatic (VStr "").
Proof.
  intros explicit_off explicit_on automatic. split.
  - exact (parse_arguments_manual_dhcp id explicit_off eq_refl
             (or_intror (conj eq_refl (conj eq_refl eq_refl)))).
  - exact (parse_arguments_manual_dhcp id explicit_on eq_refl
             (or_introl eq_refl)).
Defined.

(** ** C4 *)

(** C4.  For a mapping of type "manual" with a falsy [dhcp] field: when
    [gateway] or [dns] is truthy and [ip] is absent or empty, the call logs
    the missing address and exits with status 1; when [ip] is present with
    a truthy value (for a string: not empty) the result is a manual record
    without DHCP, built from [iface] (default empty string), [ip],
    [gateway] (default empty string) and [dns] (default empty list). *)
Theorem parse_arguments_manual_static (gettext : string -> string)
    (d : gmap string PyVal) :
  d !! "type" = Some (VStr "manual") →
  truthy_field d "dhcp" = false →
  (truthy_field d "gateway" = true ∨ truthy_field d "dns" = true →
   d !! "ip" = None ∨ d !! "ip" = Some (VStr "") →
   NetworkConfiguration.parse_arguments gettext (VDict d)
   = Exit {| template :=
               "Manual nic configuration with no auto DHCP requires an IP address";
             args := [];
             fg := "red" |} 1)
  ∧ (∀ a, d !! "ip" = Some a → truthy a = true →
     NetworkConfiguration.parse_arguments gettext (VDict d)
     = Return (Some {| NetworkConfiguration.type := MANUAL;
                       NetworkConfiguration.iface := default (VStr "") (d !! "iface");
                       NetworkConfiguration.ip := a;
                       NetworkConfiguration.dhcp := false;
                       NetworkConfiguration.gateway := default (VStr "") (d !! "gateway");
                       NetworkConfiguration.dns := default (VList []) (d !! "dns") |})).
Proof.
  intros Hty Hdhcp.
  rewrite (parse_arguments_manual gettext d _ Hty eq_refl eq_refl), Hdhcp.
  cbn [orb]. split.
  - intros Hsignal Hip.
    assert (Hipf : truthy_field d "ip" = false)
      by (unfold truthy_field; destruct Hip as [-> | ->]; reflexivity).
    rewrite Hipf. cbn [orb].
    assert (Hs : truthy_field d "gateway" || truthy_field d "dns" = true)
      by (destruct Hsignal as [-> | ->]; [reflexivity | apply orb_true_r]).
    rewrite Hs. reflexivity.
  - intros a Hip Ha.
    assert (Hipt : truthy_field d "ip" = true)
      by (unfold truthy_field; now rewrite Hip).
    rewrite Hipt, Hip. reflexivity.
Qed.

Lemma parse_arguments_manual_static_witness :
  let no_address : gmap string PyVal :=
    list_to_map [("type", VStr "manual"); ("gateway", VStr "192.168.1.1")] in
  let static : gmap string PyVal :=
    list_to_map [("type", VStr "manual"); ("iface", VStr "eth0");
                 ("ip", VStr "192.168.1.50/24"); ("gateway", VStr "192.168.1.1");
                 ("dns", VList [VStr "1.1.1.1"])] in
  NetworkConfiguration.parse_arguments id (VDict no_address)
  = Exit NetworkConfiguration.missing_ip_line 1
  ∧ NetworkConfiguration.parse_arguments id (VDict static)
    = Return (Some {| NetworkConfiguration.type := MANUAL;
                      NetworkConfiguration.iface := VStr "eth0";
                      NetworkConfiguration.ip := VStr "192.168.1.50/24";
                      NetworkConfiguration.dhcp := false;
                      NetworkConfiguration.gateway := VStr "192.168.1.1";
                      NetworkConfiguration.dns := VList [VStr "1.1.1.1"] |}).
Proof.
  intros no_address static. split.
  - exact (proj1 (parse_arguments_manual_static id no_address eq_refl eq_refl)
             (or_introl eq_refl) (or_introl eq_refl)).
  - exact (proj2 (parse_arguments_manual_static id static eq_refl eq_refl)
             (VStr "192.168.1.50/24") eq_refl eq_refl).
Defined.

(** ** C5 *)

(** A value that is none of the three strings and no member of the
    enumeration is not the value of any member. *)
Lemma NicType_call_unknown (v : PyVal) :
  (∀ t, v ≠ VStr (NicType_value t)) →
  (∀ t, v ≠ VEnum t) →
  NicType_call v = Raise ValueError.
Proof.
  intros Hstr Henum. destruct v as [| | |s|t| |]; try reflexivity.
  - unfold NicType_call.
    destruct (find _ NicType_members) as [t|] eqn:Hfind; [|reflexivity].
    apply find_some in Hfind as [_ Heq].
    apply String.eqb_eq in Heq. subst s. now destruct (Hstr t).
  - now destruct (Henum t).
Qed.

(** C5.  A mapping whose [type] field is truthy and is none of "iso", "nm",
    "manual" (compared exactly, so "Manual" is not one of them) makes the
    call log the unknown type, with the offending value and the list of the
    legal values, and exit with status 1; no record is returned. *)
Theorem parse_arguments_unknown_type (gettext : string -> string)
    (d : gmap string PyVal) (v : PyVal) :
  d !! "type" = Some v →
  truthy v = true →
  (∀ t, v ≠ VStr (NicType_value t)) →
  (∀ t, v ≠ VEnum t) →
  NetworkConfiguration.parse_arguments gettext (VDict d)
  = Exit {| template := gettext "Unknown nic type: {}. Possible values are {}";
            args := [v; VList [VStr "iso"; VStr "nm"; VStr "manual"]];
            fg := "red" |} 1
  ∧ ∀ r, NetworkConfiguration.parse_arguments gettext (VDict d) ≠ Return r.
Proof.
  intros Hty Htruthy Hstr Henum.
  assert (Hexit : NetworkConfiguration.parse_arguments gettext (VDict d)
                  = Exit (NetworkConfiguration.unknown_type_line gettext v) 1).
  { parse_unfold. rewrite Hty. cbn [default from_option id].
    rewrite Htruthy. cbn [negb].
    now rewrite (NicType_call_unknown v Hstr Henum). }
  split; [exact Hexit|]. intros r. now rewrite Hexit.
Qed.

Lemma parse_arguments_unknown_type_witness :
  let d : gmap string PyVal :=
    list_to_map [("type", VStr "Manual"); ("iface", VStr "eth0")] in
  NetworkConfiguration.parse_arguments id (VDict d)
  = Exit {| template := "Unknown nic type: {}. Possible values are {}";
            args := [VStr "Manual"; VList [VStr "iso"; VStr "nm"; VStr "manual"]];
            fg := "red" |} 1.
Proof.
  intros d.
  refine (proj1 (parse_arguments_unknown_type id d (VStr "Manual")
                   eq_refl eq_refl _ _)).
  - intros t. destruct t; discriminate.
  - intros t. discriminate.
Defined.

(** ** C6 *)

Lemma parse_arguments_json_static (gettext : string -> string)
    (r : NetworkConfiguration.t) :
  NetworkConfiguration.type r = MANUAL →
  NetworkConfiguration.dhcp r = false →
  truthy (NetworkConfiguration.ip r) = true →
  NetworkConfiguration.parse_arguments gettext (NetworkConfiguration.json r)
  = Return (Some r).
Proof.
  destruct r as [ty nic addr use_dhcp gw servers].
  unfold NetworkConfiguration.json.
  cbn [NetworkConfiguration.type NetworkConfiguration.iface
       NetworkConfiguration.ip NetworkConfiguration.dhcp
       NetworkConfiguration.gateway NetworkConfiguration.dns].
  intros -> -> Haddr.
  match goal with |- context [VDict ?m] => set (d := m) end.
  assert (Hty : d !! "type" = Some (VEnum MANUAL)) by reflexivity.
  assert (Hnic : d !! "iface" = Some nic) by reflexivity.
  assert (Hip : d !! "ip" = Some addr) by reflexivity.
  assert (Hdhcp : d !! "dhcp" = Some (VBool false)) by reflexivity.
  assert (Hgw : d !! "gateway" = Some gw) by reflexivity.
  assert (Hdns : d !! "dns" = Some servers) by reflexivity.
  rewrite (parse_arguments_manual gettext d _ Hty eq_refl eq_refl).
  unfold truthy_field. rewrite Hnic, Hip, Hdhcp, Hgw, Hdns, Haddr.
  reflexivity.
Qed.

(** C6.  Round trip: a manual record without DHCP whose address, gateway
    and DNS fields are not empty, serialised with [json] and parsed again,
    gives the record back. *)
Theorem json_parse_arguments_roundtrip (gettext : string -> string)
    (r : NetworkConfiguration.t) :
  NetworkConfiguration.type r = MANUAL →
  NetworkConfiguration.dhcp r = false →
  truthy (NetworkConfiguration.ip r) = true →
  truthy (NetworkConfiguration.gateway r) = true →
  truthy (NetworkConfiguration.dns r) = true →
  NetworkConfiguration.parse_arguments gettext (NetworkConfiguration.json r)
  = Return (Some r).
Proof.
  intros Hty Hdhcp Hip _ _. now apply parse_arguments_json_static.
Qed.

Lemma json_parse_arguments_roundtrip_witness :
  let r := {| NetworkConfiguration.type := MANUAL;
              NetworkConfiguration.iface := VStr "eth0";
              NetworkConfiguration.ip := VStr "192.168.1.50/24";
              NetworkConfiguration.dhcp := false;
              NetworkConfiguration.gateway := VStr "192.168.1.1";
              NetworkConfiguration.dns := VList [VStr "1.1.1.1"; VStr "9.9.9.9"] |} in
  NetworkConfiguration.parse_arguments id (NetworkConfiguration.json r)
  = Return (Some r).
Proof.
  intros r.
  exact (json_parse_arguments_roundtrip id r eq_refl eq_refl eq_refl eq_refl
           eq_refl).
Defined.

(** ** C9 *)

Lemma getitem_returns_iff (self : NetworkConfiguration.t) (key : string) :
  (∃ v, NetworkConfiguration.__getitem__ self key = Return v)
  ↔ key ∈ readable_keys.
Proof.
  unfold NetworkConfiguration.__getitem__, readable_keys.
  rewrite !elem_of_cons, elem_of_nil.
  destruct (String.eqb_spec key "type") as [->|Hty]; [split; eauto|].
  destruct (String.eqb_spec key "iface") as [->|Hif]; [split; eauto|].
  destruct (String.eqb_spec key "gateway") as [->|Hgw]; [split; eauto|].
  destruct (String.eqb_spec key "dns") as [->|Hdns]; [split; eauto 6|].
  destruct (String.eqb_spec key "dhcp") as [->|Hdh]; [split; eauto 6|].
  split; [intros [v Hv]; discriminate | tauto].
Qed.

Lemma getitem_raises (self : NetworkConfiguration.t) (key : string) :
  key ∉ readable_keys →
  NetworkConfiguration.__getitem__ self key = Raise KeyError.
Proof.
  intros Hnot.
  destruct (NetworkConfiguration.__getitem__ self key) as [v|e|l c] eqn:Hget.
  - destruct Hnot. apply (getitem_returns_iff self). eauto.
  - revert Hget. unfold NetworkConfiguration.__getitem__.
    repeat (destruct (String.eqb key _); [discriminate|]). congruence.
  - revert Hget. unfold NetworkConfiguration.__getitem__.
    repeat (destruct (String.eqb key _); [discriminate|]). discriminate.
Qed.

(** C9.  [__getitem__] answers the keys type, iface, gateway, dns and dhcp
    with the field of that name, returns exactly for these five keys, and
    raises [KeyError] for every other key, and so does [get]; the address
    cannot be read under the key ip, also on a manual record that holds
    one; [get] returns the default whenever the field read is [None], and
    the field otherwise. *)
Theorem getitem_get_keys (self : NetworkConfiguration.t) (key : string)
    (default_value : PyVal) :
  (NetworkConfiguration.__getitem__ self "type"
     = Return (VEnum (NetworkConfiguration.type self))
   ∧ NetworkConfiguration.__getitem__ self "iface"
     = Return (NetworkConfiguration.iface self)
   ∧ NetworkConfiguration.__getitem__ self "gateway"
     = Return (NetworkConfiguration.gateway self)
   ∧ NetworkConfiguration.__getitem__ self "dns"
     = Return (NetworkConfiguration.dns self)
   ∧ NetworkConfiguration.__getitem__ self "dhcp"
     = Return (VBool (NetworkConfiguration.dhcp self)))
  ∧ (NetworkConfiguration.get self "type" default_value
       = Return (VEnum (NetworkConfiguration.type self))
     ∧ NetworkConfiguration.get self "iface" default_value
       = Return (or_default (NetworkConfiguration.iface self) default_value)
     ∧ NetworkConfiguration.get self "gateway" default_value
       = Return (or_default (NetworkConfiguration.gateway self) default_value)
     ∧ NetworkConfiguration.get self "dns" default_value
       = Return (or_default (NetworkConfiguration.dns self) default_value)
     ∧ NetworkConfiguration.get self "dhcp" default_value
       = Return (VBool (NetworkConfiguration.dhcp self)))
  ∧ ((∃ v, NetworkConfiguration.__getitem__ self key = Return v)
     ↔ key ∈ readable_keys)
  ∧ ((∃ v, NetworkConfiguration.get self key default_value = Return v)
     ↔ key ∈ readable_keys)
  ∧ (key ∉ readable_keys →
     NetworkConfiguration.__getitem__ self key = Raise KeyError
     ∧ NetworkConfiguration.get self key default_value = Raise KeyError)
  ∧ NetworkConfiguration.__getitem__ self "ip" = Raise KeyError
  ∧ NetworkConfiguration.get self "ip" default_value = Raise KeyError
  ∧ (NetworkConfiguration.__getitem__ self key = Return VNone →
     NetworkConfiguration.get self key default_value = Return default_value)
  ∧ (∀ v, NetworkConfiguration.__getitem__ self key = Return v →
     v ≠ VNone →
     NetworkConfiguration.get self key default_value = Return v).
Proof.
  split; [now repeat split|].
  split.
  { unfold NetworkConfiguration.get, or_default.
    cbn [NetworkConfiguration.__getitem__ String.eqb Ascii.eqb Bool.eqb
         mbind outcome_mbind outcome_bind].
    split; [reflexivity|].
    split; [now destruct (NetworkConfiguration.iface self)|].
    split; [now destruct (NetworkConfiguration.gateway self)|].
    split; [now destruct (NetworkConfiguration.dns self)|reflexivity]. }
  split; [apply getitem_returns_iff|].
  split.
  { rewrite <- (getitem_returns_iff self key).
    unfold NetworkConfiguration.get. cbn [mbind outcome_mbind].
    destruct (NetworkConfiguration.__getitem__ self key) as [v|e|l c];
      cbn [outcome_bind].
    - split; [eauto|]. intros _. destruct v; eauto.
    - split; intros [v Hv]; discriminate.
    - split; intros [v Hv]; discriminate. }
  split.
  { intros Hnot. unfold NetworkConfiguration.get.
    now rewrite (getitem_raises self key Hnot). }
  split; [reflexivity|]. split; [reflexivity|].
  unfold NetworkConfiguration.get. cbn [mbind outcome_mbind].
  split.
  - intros ->. reflexivity.
  - intros v -> Hv. cbn [outcome_bind]. now destruct v.
Qed.

Lemma getitem_get_keys_witness :
  let self := {| NetworkConfiguration.type := MANUAL;
                 NetworkConfiguration.iface := VStr "eth0";
                 NetworkConfiguration.ip := VStr "192.168.1.50/24";
                 NetworkConfiguration.dhcp := false;
                 NetworkConfiguration.gateway := VNone;
                 NetworkConfiguration.dns := VList [VStr "1.1.1.1"] |} in
  NetworkConfiguration.get self "address" (VStr "fallback") = Raise KeyError
  ∧ NetworkConfiguration.get self "gateway" (VStr "fallback")
    = Return (VStr "fallback")
  ∧ NetworkConfiguration.get self "iface" (VStr "fallback")
    = Return (VStr "eth0")
  ∧ NetworkConfiguration.__getitem__ self "dns"
    = Return (VList [VStr "1.1.1.1"])
  ∧ NetworkConfiguration.get (NetworkConfiguration.new ISO) "iface"
      (VStr "fallback")
    = Return (VStr "fallback").
Proof.
  intros self.
  destruct (getitem_get_keys self "address" (VStr "fallback"))
    as ((_ & _ & _ & Hdns & _) & (_ & Hiface & Hgateway & _) & _ & _
        & Hother & _).
  destruct (getitem_get_keys (NetworkConfiguration.new ISO) "iface"
              (VStr "fallback")) as (_ & (_ & Hbare & _) & _).
  split; [|split; [|split; [|split]]].
  - apply Hother. unfold readable_keys. rewrite !elem_of_cons, elem_of_nil.
    intros [H|[H|[H|[H|[H|[]]]]]]; discriminate H.
  - exact Hgateway.
  - exact Hiface.
  - exact Hdns.
  - exact Hbare.
Defined.

(** ** C10 *)

Lemma legacy_resolution_delete_type (d : gmap string PyVal) :
  legacy_resolution (delete "type" d) = legacy_resolution d.
Proof.
  unfold legacy_resolution.
  rewrite truthy_field_delete by discriminate.
  now rewrite !lookup_delete_ne by discriminate.
Qed.

(** C10.  A mapping whose [type] key is present with a falsy value is
    parsed as the same mapping without that key: by the rules for a mapping
    without type ([NetworkManager], [ip], [nic], nothing).  The call
    returns, so it does not exit with the unknown type error, although the
    value is none of the legal ones. *)
Theorem parse_arguments_falsy_type (gettext : string -> string)
    (d : gmap string PyVal) (v : PyVal) :
  d !! "type" = Some v →
  truthy v = false →
  NetworkConfiguration.parse_arguments gettext (VDict d)
  = NetworkConfiguration.parse_arguments gettext (VDict (delete "type" d))
  ∧ NetworkConfiguration.parse_arguments gettext (VDict d)
    = Return (legacy_resolution d)
  ∧ ∀ line status,
      NetworkConfiguration.parse_arguments gettext (VDict d) ≠ Exit line status.
Proof.
  intros Hty Hfalsy.
  assert (Hd : truthy_field d "type" = false)
    by (unfold truthy_field; now rewrite Hty).
  assert (Hdel : truthy_field (delete "type" d) "type" = false)
    by (unfold truthy_field; now rewrite lookup_delete_eq).
  rewrite (parse_arguments_legacy gettext d Hd).
  rewrite (parse_arguments_legacy gettext _ Hdel).
  rewrite legacy_resolution_delete_type.
  repeat split. intros line status. discriminate.
Qed.

Lemma parse_arguments_falsy_type_witness :
  let d : gmap string PyVal :=
    list_to_map [("type", VStr ""); ("nic", VStr "eth0")] in
  NetworkConfiguration.parse_arguments id (VDict d)
  = Return (Some {| NetworkConfiguration.type := MANUAL;
                    NetworkConfiguration.iface := VStr "eth0";
                    NetworkConfiguration.ip := VNone;
                    NetworkConfiguration.dhcp := true;
                    NetworkConfiguration.gateway := VNone;
                    NetworkConfiguration.dns := VNone |}).
Proof.
  intros d.
  exact (proj1 (proj2 (parse_arguments_falsy_type id d (VStr "")
                         eq_refl eq_refl))).
Defined.

(** ** Insertion-ordered dictionaries: lookup after update and deletion *)

Lemma od_get_set_eq (k : string) (v : PyVal) (d : odict) :
  od_get k (od_set k v d) = Some v.
Proof.
  induction d as [|[k' v'] d IH]; cbn.
  - now rewrite String.eqb_refl.
  - destruct (String.eqb k' k) eqn:Hk; cbn; now rewrite Hk.
Qed.

Lemma od_get_set_ne (k k' : string) (v : PyVal) (d : odict) :
  k ≠ k' → od_get k' (od_set k v d) = od_get k' d.
Proof.
  intros Hne. induction d as [|[k0 v0] d IH]; cbn.
  - now apply String.eqb_neq in Hne as ->.
  - destruct (String.eqb_spec k0 k) as [->|Hk0]; cbn.
    + now apply String.eqb_neq in Hne as ->.
    + now rewrite IH.
Qed.

Lemma od_set_same (k : string) (v : PyVal) (d : odict) :
  od_get k d = Some v → od_set k v d = d.
Proof.
  induction d as [|[k' v'] d IH]; cbn; [discriminate|].
  destruct (String.eqb k' k).
  - now intros [= ->].
  - intros Hget. now rewrite IH.
Qed.

Lemma od_del_absent (k : string) (d : odict) :
  od_get k d = None → od_del k d = None.
Proof.
  induction d as [|[k' v'] d IH]; cbn; [reflexivity|].
  destruct (String.eqb k' k); [discriminate|].
  intros Hget. now rewrite IH.
Qed.

Lemma od_del_present (k : string) (d : odict) :
  is_Some (od_get k d) → is_Some (od_del k d).
Proof.
  induction d as [|[k' v'] d IH]; cbn.
  - now intros [? ?].
  - destruct (String.eqb k' k); [eauto|].
    intros Hget. destruct (IH Hget) as [r ->]. eauto.
Qed.

Lemma od_del_other (k k' : string) (d d' : odict) :
  od_del k d = Some d' → k ≠ k' → od_get k' d' = od_get k' d.
Proof.
  revert d'. induction d as [|[k0 v0] d IH]; cbn; [discriminate|].
  intros d'. destruct (String.eqb_spec k0 k) as [->|Hk0].
  - intros [= ->] Hne. now apply String.eqb_neq in Hne as ->.
  - destruct (od_del k d) as [r|]; [|discriminate].
    intros [= <-] Hne. cbn. now rewrite (IH r eq_refl Hne).
Qed.

Lemma od_update_one (d : odict) (k : string) (v : PyVal) :
  od_update d [(k, v)] = od_set k v d.
Proof. reflexivity. Qed.

Create HintDb odict.
#[local] Hint Resolve od_get_set_eq od_get_set_ne od_set_same od_del_absent
  od_del_present : odict.

(** ** C7 *)

(** C7 as claimed does not hold: with the collection [{"root": "/"}] and
    the target [{"home": "/home"}], whose key is not in the collection,
    Delete does not return; [del self.data[origkey]] raises [KeyError]. *)
Lemma exec_action_delete_absent_not_noop :
  ¬ (∀ (d : odict) (k : string) (v : PyVal),
       od_get k d = None →
       ∃ b, SubvolumeList.exec_action id untouched
              {| SubvolumeList.data := d;
                 SubvolumeList.target := Some [(k, v)];
                 SubvolumeList.action := Some "Delete" |}
            = (Return b,
               {| SubvolumeList.data := d;
                  SubvolumeList.target := Some [(k, v)];
                  SubvolumeList.action := Some "Delete" |})).
Proof.
  intros Hclaim.
  destruct (Hclaim [("root", VStr "/")] "home" (VStr "/home") eq_refl)
    as [b Hb].
  discriminate Hb.
Qed.

(** C7, amended.  Delete aimed at a key that is not in the collection
    raises [KeyError]; the collection, the target and the action are left
    as they were. *)
Theorem exec_action_delete_absent_raises (gettext : string -> string)
    (session : SubvolumeMenu.t -> SubvolumeMenu.DataStore * PyVal)
    (d rest : odict) (k : string) (v : PyVal) :
  od_get k d = None →
  SubvolumeList.exec_action gettext session
    {| SubvolumeList.data := d;
       SubvolumeList.target := Some ((k, v) :: rest);
       SubvolumeList.action := Some (gettext "Delete") |}
  = (Raise KeyError,
     {| SubvolumeList.data := d;
        SubvolumeList.target := Some ((k, v) :: rest);
        SubvolumeList.action := Some (gettext "Delete") |}).
Proof.
  intros Habsent. unfold SubvolumeList.exec_action.
  cbn [SubvolumeList.action SubvolumeList.target SubvolumeList.data
       SubvolumeList.action_is].
  rewrite String.eqb_refl. cbn [mbind option_bind].
  now rewrite (od_del_absent k d Habsent).
Qed.

Lemma exec_action_delete_absent_raises_witness :
  SubvolumeList.exec_action id untouched
    {| SubvolumeList.data := [("root", VStr "/")];
       SubvolumeList.target := Some [("home", VStr "/home")];
       SubvolumeList.action := Some "Delete" |}
  = (Raise KeyError,
     {| SubvolumeList.data := [("root", VStr "/")];
        SubvolumeList.target := Some [("home", VStr "/home")];
        SubvolumeList.action := Some "Delete" |}).
Proof.
  exact (exec_action_delete_absent_raises id untouched
           [("root", VStr "/")] [] "home" (VStr "/home") eq_refl).
Defined.

(** Delete aimed at a key of the collection returns [True]; the other keys
    keep their values. *)
Lemma exec_action_delete_present (gettext : string -> string)
    (session : SubvolumeMenu.t -> SubvolumeMenu.DataStore * PyVal)
    (d rest : odict) (k : string) (v : PyVal) :
  is_Some (od_get k d) →
  ∃ d', SubvolumeList.exec_action gettext session
          {| SubvolumeList.data := d;
             SubvolumeList.target := Some ((k, v) :: rest);
             SubvolumeList.action := Some (gettext "Delete") |}
        = (Return true,
           {| SubvolumeList.data := d';
              SubvolumeList.target := Some ((k, v) :: rest);
              SubvolumeList.action := Some (gettext "Delete") |})
        ∧ od_del k d = Some d'
        ∧ ∀ k', k ≠ k' → od_get k' d' = od_get k' d.
Proof.
  intros Hpresent. destruct (od_del_present k d Hpresent) as [d' Hdel].
  exists d'. split; [|split; [exact Hdel|]].
  - unfold SubvolumeList.exec_action.
    cbn [SubvolumeList.action SubvolumeList.target SubvolumeList.data
         SubvolumeList.action_is].
    rewrite String.eqb_refl. cbn [mbind option_bind]. now rewrite Hdel.
  - intros k' Hne. exact (od_del_other k k' d d' Hdel Hne).
Qed.

(** Delete with no target, or an empty one, looks up the key [None]. *)
Lemma exec_action_delete_no_target (gettext : string -> string)
    (session : SubvolumeMenu.t -> SubvolumeMenu.DataStore * PyVal)
    (d : odict) (tgt : option odict) :
  tgt = None ∨ tgt = Some [] →
  fst (SubvolumeList.exec_action gettext session
         {| SubvolumeList.data := d;
            SubvolumeList.target := tgt;
            SubvolumeList.action := Some (gettext "Delete") |})
  = Raise KeyError.
Proof.
  intros [-> | ->]; unfold SubvolumeList.exec_action;
    cbn [SubvolumeList.action SubvolumeList.target SubvolumeList.action_is];
    now rewrite String.eqb_refl.
Qed.

(** ** exit_callback on its target *)

Lemma value_of_mountpoint (store : SubvolumeMenu.DataStore) :
  SubvolumeMenu.value_of store !! "mountpoint"
  = if truthy (SubvolumeMenu.mountpoint store)
    then Some (SubvolumeMenu.mountpoint store) else None.
Proof.
  unfold SubvolumeMenu.value_of.
  destruct (truthy (SubvolumeMenu.mountpoint store)),
           (truthy (SubvolumeMenu.options store));
    now simplify_map_eq.
Qed.

Lemma value_of_options (store : SubvolumeMenu.DataStore) :
  SubvolumeMenu.value_of store !! "options"
  = if truthy (SubvolumeMenu.options store)
    then Some (SubvolumeMenu.options store) else None.
Proof.
  unfold SubvolumeMenu.value_of.
  destruct (truthy (SubvolumeMenu.mountpoint store)),
           (truthy (SubvolumeMenu.options store));
    now simplify_map_eq.
Qed.

Lemma exit_callback_abort (self : SubvolumeMenu.t) :
  truthy (SubvolumeMenu.cancel_selection self) = true
  ∨ SubvolumeMenu.name (SubvolumeMenu.ds self) = None
  ∨ SubvolumeMenu.name (SubvolumeMenu.ds self) = Some "" →
  SubvolumeMenu.exit_callback self = Return self.
Proof.
  unfold SubvolumeMenu.exit_callback.
  intros [-> | [-> | ->]]; [reflexivity| |];
    now destruct (truthy (SubvolumeMenu.cancel_selection self)).
Qed.

Lemma exit_callback_commit (d : odict) (act : option string)
    (store : SubvolumeMenu.DataStore) (cancel : PyVal) (key : string) :
  truthy cancel = false →
  SubvolumeMenu.name store = Some key →
  key ≠ "" →
  SubvolumeMenu.exit_callback
    {| SubvolumeMenu.data := Some d; SubvolumeMenu.action := act;
       SubvolumeMenu.ds := store; SubvolumeMenu.cancel_selection := cancel |}
  = Return
      {| SubvolumeMenu.data :=
           Some (od_set key (VDict (SubvolumeMenu.value_of store)) d);
         SubvolumeMenu.action := act;
         SubvolumeMenu.ds := store;
         SubvolumeMenu.cancel_selection := cancel |}.
Proof.
  intros Hcancel Hname Hkey. unfold SubvolumeMenu.exit_callback.
  cbn [SubvolumeMenu.cancel_selection SubvolumeMenu.ds SubvolumeMenu.data
       SubvolumeMenu.action].
  rewrite Hcancel, Hname. cbn [SubvolumeMenu.name_given].
  now apply String.eqb_neq in Hkey as ->.
Qed.

(** [exit_callback] alone.  On exit of an edit session whose target is the
    mapping [d]:
    - if Cancel is selected, or the name of the scratch record is missing
      or empty, the session ends with [d] as it was;
    - otherwise the scratch record is merged: [d] gets the entry of the
      name, a mapping that holds the mountpoint and the options when they
      are truthy, whatever they are (nothing else about them is checked),
      and the other entries of [d] are untouched;
    - so [d] changes only if Cancel is not selected and the name is not
      empty. *)
Theorem exit_callback_merges_iff (d : odict) (act : option string)
    (store : SubvolumeMenu.DataStore) (cancel : PyVal) :
  let self := {| SubvolumeMenu.data := Some d; SubvolumeMenu.action := act;
                 SubvolumeMenu.ds := store;
                 SubvolumeMenu.cancel_selection := cancel |} in
  (truthy cancel = true ∨ SubvolumeMenu.name store = None
   ∨ SubvolumeMenu.name store = Some "" →
   SubvolumeMenu.exit_callback self = Return self)
  ∧ (truthy cancel = false →
     ∀ key, SubvolumeMenu.name store = Some key → key ≠ "" →
     ∃ d' value,
       SubvolumeMenu.exit_callback self
       = Return {| SubvolumeMenu.data := Some d'; SubvolumeMenu.action := act;
                   SubvolumeMenu.ds := store;
                   SubvolumeMenu.cancel_selection := cancel |}
       ∧ d' = od_update d [(key, VDict value)]
       ∧ od_get key d' = Some (VDict value)
       ∧ (∀ k, key ≠ k → od_get k d' = od_get k d)
       ∧ value !! "mountpoint"
         = (if truthy (SubvolumeMenu.mountpoint store)
            then Some (SubvolumeMenu.mountpoint store) else None)
       ∧ value !! "options"
         = (if truthy (SubvolumeMenu.options store)
            then Some (SubvolumeMenu.options store) else None))
  ∧ (∀ self', SubvolumeMenu.exit_callback self = Return self' →
     SubvolumeMenu.data self' ≠ Some d →
     truthy cancel = false
     ∧ ∃ key, SubvolumeMenu.name store = Some key ∧ key ≠ "").
Proof.
  intros self. split; [|split].
  - intros Habort. now apply exit_callback_abort.
  - intros Hcancel key Hname Hkey.
    exists (od_set key (VDict (SubvolumeMenu.value_of store)) d),
           (SubvolumeMenu.value_of store).
    split; [now apply exit_callback_commit|].
    rewrite od_update_one.
    repeat (split; [solve [auto with odict]|]).
    split; [apply value_of_mountpoint | apply value_of_options].
  - intros self' Hexit Hchanged.
    destruct (truthy cancel) eqn:Hcancel.
    + rewrite (exit_callback_abort self) in Hexit by (left; exact Hcancel).
      injection Hexit as <-. now destruct Hchanged.
    + split; [reflexivity|].
      destruct (SubvolumeMenu.name store) as [key|] eqn:Hname.
      * exists key. split; [reflexivity|]. intros ->.
        rewrite (exit_callback_abort self) in Hexit
          by (right; right; exact Hname).
        injection Hexit as <-. now destruct Hchanged.
      * rewrite (exit_callback_abort self) in Hexit
          by (right; left; exact Hname).
        injection Hexit as <-. now destruct Hchanged.
Qed.

Lemma exit_callback_merges_iff_witness :
  let d : odict := [("root", VStr "/")] in
  let store := {| SubvolumeMenu.name := Some "home";
                  SubvolumeMenu.mountpoint := VStr "/home";
                  SubvolumeMenu.options := VList [] |} in
  SubvolumeMenu.exit_callback
    {| SubvolumeMenu.data := Some d; SubvolumeMenu.action := Some "Add";
       SubvolumeMenu.ds := store;
       SubvolumeMenu.cancel_selection := VBool true |}
  = Return
      {| SubvolumeMenu.data := Some d; SubvolumeMenu.action := Some "Add";
         SubvolumeMenu.ds := store;
         SubvolumeMenu.cancel_selection := VBool true |}
  ∧ ∃ d', SubvolumeMenu.exit_callback
            {| SubvolumeMenu.data := Some d; SubvolumeMenu.action := Some "Add";
               SubvolumeMenu.ds := store;
               SubvolumeMenu.cancel_selection := VNone |}
          = Return
              {| SubvolumeMenu.data := Some d';
                 SubvolumeMenu.action := Some "Add";
                 SubvolumeMenu.ds := store;
                 SubvolumeMenu.cancel_selection := VNone |}
          ∧ od_get "root" d' = Some (VStr "/").
Proof.
  intros d store. split.
  - exact (proj1 (exit_callback_merges_iff d (Some "Add") store (VBool true))
             (or_introl eq_refl)).
  - destruct (proj1 (proj2
        (exit_callback_merges_iff d (Some "Add") store VNone))
        eq_refl "home" eq_refl ltac:(discriminate))
      as (d' & value & Hexit & _ & _ & Hother & _).
    exists d'. split; [exact Hexit|].
    rewrite (Hother "root") by discriminate. reflexivity.
Defined.

(** *** The collection of the list manager around an edit session *)

Section ExecActionSession.

Variable gettext : string -> string.
Variable session : SubvolumeMenu.t -> SubvolumeMenu.DataStore * PyVal.

Lemma exit_callback_aborted (self : SubvolumeMenu.t) :
  truthy (SubvolumeMenu.cancel_selection self) = true
  ∨ SubvolumeMenu.name_given (SubvolumeMenu.name (SubvolumeMenu.ds self)) = false →
  SubvolumeMenu.exit_callback self = Return self.
Proof.
  unfold SubvolumeMenu.exit_callback. intros [-> | ->]; [reflexivity|].
  now destruct (truthy (SubvolumeMenu.cancel_selection self)).
Qed.

Lemma edit_aborted (parameters : option odict) (act : option string)
    (menu : SubvolumeMenu.t) :
  SubvolumeMenu.__init__ parameters act = Return menu →
  aborts session menu →
  SubvolumeList.edit session parameters act = Return parameters.
Proof.
  intros Hnew Habort. unfold SubvolumeList.edit. rewrite Hnew.
  cbn [mbind outcome_mbind outcome_bind]. unfold aborts in Habort.
  destruct (session menu) as [store cancel]. cbn [fst snd] in Habort.
  rewrite exit_callback_aborted by exact Habort.
  cbn [outcome_bind mret outcome_ret SubvolumeMenu.data].
  revert Hnew. unfold SubvolumeMenu.__init__. cbn [mbind outcome_mbind].
  destruct (match parameters with Some ((_, _) :: _) => _ | _ => _ end);
    cbn [outcome_bind mret outcome_ret]; [|discriminate..].
  now intros [= <-].
Qed.

(** X21.  Add, abandoned (Cancel selected, or no name entered): the call
    returns [True], the collection is as it was, and the target is the
    empty mapping. *)
Lemma exec_action_add_aborted (d : odict) (tgt : option odict)
    (act : option string) (menu : SubvolumeMenu.t) :
  SubvolumeList.action_is act (gettext "Delete") = false →
  SubvolumeList.action_is act (gettext "Add") = true →
  SubvolumeMenu.__init__ (Some []) act = Return menu →
  aborts session menu →
  SubvolumeList.exec_action gettext session
    {| SubvolumeList.data := d; SubvolumeList.target := tgt;
       SubvolumeList.action := act |}
  = (Return true,
     {| SubvolumeList.data := d; SubvolumeList.target := Some [];
        SubvolumeList.action := act |}).
Proof.
  intros Hdel Hadd Hnew Habort. unfold SubvolumeList.exec_action.
  cbn [SubvolumeList.action SubvolumeList.target SubvolumeList.data].
  rewrite Hdel, Hadd.
  cbn [SubvolumeList.action SubvolumeList.target SubvolumeList.data].
  now rewrite (edit_aborted (Some []) act menu Hnew Habort).
Qed.

(** X22.  Edit or Copy of an entry of the collection, abandoned: the call
    returns [True], and the collection and the target are as they were. *)
Lemma exec_action_edit_aborted (d : odict) (k : string) (v : PyVal)
    (act : option string) (menu : SubvolumeMenu.t) :
  SubvolumeList.action_is act (gettext "Delete") = false →
  SubvolumeList.action_is act (gettext "Add") = false →
  od_get k d = Some v →
  SubvolumeMenu.__init__ (Some [(k, v)]) act = Return menu →
  aborts session menu →
  SubvolumeList.exec_action gettext session
    {| SubvolumeList.data := d; SubvolumeList.target := Some [(k, v)];
       SubvolumeList.action := act |}
  = (Return true,
     {| SubvolumeList.data := d; SubvolumeList.target := Some [(k, v)];
        SubvolumeList.action := act |}).
Proof.
  intros Hdel Hadd Hget Hnew Habort. unfold SubvolumeList.exec_action.
  cbn [SubvolumeList.action SubvolumeList.target SubvolumeList.data].
  rewrite Hdel, Hadd.
  cbn [SubvolumeList.action SubvolumeList.target SubvolumeList.data].
  rewrite (edit_aborted (Some [(k, v)]) act menu Hnew Habort).
  cbn [SubvolumeList.data]. rewrite od_update_one.
  now rewrite (od_set_same k v d Hget).
Qed.

End ExecActionSession.

(** * Further properties of the code *)

(** ** parse_arguments: which inputs raise, return or exit *)

Lemma NicType_call_cases (v : PyVal) :
  (∃ ty, NicType_call v = Return ty) ∨ NicType_call v = Raise ValueError.
Proof.
  destruct v as [| | |s|t| |]; cbn [NicType_call]; eauto.
  match goal with |- context [find ?f ?l] => destruct (find f l) end; eauto.
Qed.

Lemma parse_arguments_typed (gettext : string -> string)
    (d : gmap string PyVal) (v : PyVal) :
  d !! "type" = Some v →
  truthy v = true →
  NetworkConfiguration.parse_arguments gettext (VDict d)
  = typed_resolution gettext d v.
Proof.
  intros Hty Htruthy. unfold typed_resolution.
  destruct (NicType_call_cases v) as [[ty Hcall] | Hcall].
  - rewrite Hcall. destruct ty.
    + parse_unfold. rewrite Hty. cbn [default from_option id].
      rewrite Htruthy. cbn [negb]. now rewrite Hcall.
    + parse_unfold. rewrite Hty. cbn [default from_option id].
      rewrite Htruthy. cbn [negb]. now rewrite Hcall.
    + exact (parse_arguments_manual gettext d v Hty Htruthy Hcall).
  - rewrite Hcall. parse_unfold. rewrite Hty. cbn [default from_option id].
    rewrite Htruthy. cbn [negb]. now rewrite Hcall.
Qed.

(** The two ways through [parse_arguments] for a mapping. *)
Lemma parse_arguments_mapping (gettext : string -> string)
    (d : gmap string PyVal) :
  (truthy_field d "type" = false
   ∧ NetworkConfiguration.parse_arguments gettext (VDict d)
     = Return (legacy_resolution d))
  ∨ (∃ v, d !! "type" = Some v ∧ truthy v = true
          ∧ NetworkConfiguration.parse_arguments gettext (VDict d)
            = typed_resolution gettext d v).
Proof.
  destruct (truthy_field d "type") eqn:Hfield.
  - right. unfold truthy_field in Hfield.
    destruct (d !! "type") as [v|] eqn:Hty; [|discriminate].
    exists v. repeat split; [exact Hfield|].
    now apply parse_arguments_typed.
  - left. split; [reflexivity|]. now apply parse_arguments_legacy.
Qed.

Lemma manual_resolution_not_raise (d : gmap string PyVal) (e : PyExn) :
  manual_resolution d ≠ Raise e.
Proof.
  unfold manual_resolution.
  destruct (truthy_field d "dhcp" || _); [discriminate|].
  destruct (truthy_field d "ip"); discriminate.
Qed.

Lemma typed_resolution_not_raise (gettext : string -> string)
    (d : gmap string PyVal) (v : PyVal) (e : PyExn) :
  typed_resolution gettext d v ≠ Raise e.
Proof.
  unfold typed_resolution.
  destruct (NicType_call v) as [[| |]| |]; try discriminate.
  apply manual_resolution_not_raise.
Qed.

(** X1.  [parse_arguments] raises exactly on what is not a mapping (None,
    a boolean, a number, a string, a list), and then an [AttributeError];
    on a mapping it returns or exits, whatever the mapping holds. *)
Theorem parse_arguments_raises_iff_not_mapping (gettext : string -> string)
    (config : PyVal) :
  ((∀ d, config ≠ VDict d) →
   NetworkConfiguration.parse_arguments gettext config = Raise AttributeError)
  ∧ (∀ e, NetworkConfiguration.parse_arguments gettext config = Raise e →
     e = AttributeError ∧ ∀ d, config ≠ VDict d).
Proof.
  split.
  - intros Hnot. destruct config; try reflexivity. now destruct (Hnot d).
  - intros e Hraise. destruct config as [| | | | | |d];
      try (injection Hraise as <-; split; [reflexivity|discriminate]).
    exfalso.
    destruct (parse_arguments_mapping gettext d)
      as [[_ Hleg] | (v & _ & _ & Htyped)].
    + rewrite Hleg in Hraise. discriminate.
    + rewrite Htyped in Hraise.
      exact (typed_resolution_not_raise gettext d v e Hraise).
Qed.

Lemma parse_arguments_raises_iff_not_mapping_witness :
  NetworkConfiguration.parse_arguments id (VList [VStr "eth0"])
  = Raise AttributeError.
Proof.
  refine (proj1 (parse_arguments_raises_iff_not_mapping id
                   (VList [VStr "eth0"])) _).
  intros d. discriminate.
Defined.

(** X2.  An explicit type iso or nm wins over everything else in the
    mapping: the result is the bare record of that kind, also when the
    mapping carries [NetworkManager], [ip], [nic], [dhcp] or [dns]. *)
Theorem parse_arguments_explicit_bare (gettext : string -> string)
    (d : gmap string PyVal) (ty : NicType) :
  ty ≠ MANUAL →
  d !! "type" = Some (VStr (NicType_value ty)) →
  NetworkConfiguration.parse_arguments gettext (VDict d)
  = Return (Some {| NetworkConfiguration.type := ty;
                    NetworkConfiguration.iface := VNone;
                    NetworkConfiguration.ip := VNone;
                    NetworkConfiguration.dhcp := true;
                    NetworkConfiguration.gateway := VNone;
                    NetworkConfiguration.dns := VNone |}).
Proof.
  intros Hty Hd.
  rewrite (parse_arguments_typed gettext d _ Hd) by now destruct ty.
  destruct ty; [reflexivity..|now destruct Hty].
Qed.

Lemma parse_arguments_explicit_bare_witness :
  let d : gmap string PyVal :=
    list_to_map [("type", VStr "iso"); ("NetworkManager", VBool true);
                 ("ip", VStr "10.0.0.2/24"); ("nic", VStr "eth0")] in
  NetworkConfiguration.parse_arguments id (VDict d)
  = Return (Some (NetworkConfiguration.new ISO)).
Proof.
  intros d.
  refine (parse_arguments_explicit_bare id d ISO _ eq_refl). discriminate.
Defined.

(** ** parse_arguments: the records it returns *)

Lemma parse_arguments_returns_shape (gettext : string -> string)
    (d : gmap string PyVal) (r : NetworkConfiguration.t) :
  NetworkConfiguration.parse_arguments gettext (VDict d) = Return (Some r) →
  r = NetworkConfiguration.new ISO
  ∨ r = NetworkConfiguration.new NM
  ∨ (∃ nic, r = automatic_record nic)
  ∨ (∃ nic addr gw servers,
       r = static_record nic addr gw servers
       ∧ (truthy_field d "type" = true → truthy addr = true)).
Proof.
  intros Hparse.
  destruct (parse_arguments_mapping gettext d)
    as [[Hfield Hleg] | (v & Hty & Htruthy & Htyped)].
  - rewrite Hleg in Hparse. injection Hparse as Hres.
    unfold legacy_resolution in Hres.
    destruct (truthy_field d "NetworkManager"); [injection Hres as <-; auto|].
    destruct (d !! "ip") as [a|].
    + injection Hres as <-. right; right; right.
      eexists _, _, _, _. split; [reflexivity|]. congruence.
    + destruct (d !! "nic") as [n|]; [|discriminate].
      injection Hres as <-. right; right; left. now exists n.
  - rewrite Htyped in Hparse. unfold typed_resolution in Hparse.
    destruct (NicType_call v) as [[| |]| |]; try discriminate.
    + injection Hparse as <-. auto.
    + injection Hparse as <-. auto.
    + unfold manual_resolution in Hparse.
      destruct (truthy_field d "dhcp" || _).
      * injection Hparse as <-. right; right; left. eauto.
      * destruct (truthy_field d "ip") eqn:Hip; [|discriminate].
        injection Hparse as <-. right; right; right.
        eexists _, _, _, _. split; [reflexivity|]. intros _.
        now rewrite truthy_default_empty.
Qed.

(** X3.  Every record that [parse_arguments] returns has one of three
    shapes: a kind other than manual comes with every other field at its
    default; with DHCP on, address, gateway and DNS are [None]; DHCP is off
    only on a manual record. *)
Theorem parse_arguments_record_invariant (gettext : string -> string)
    (config : PyVal) (r : NetworkConfiguration.t) :
  NetworkConfiguration.parse_arguments gettext config = Return (Some r) →
  (NetworkConfiguration.type r ≠ MANUAL →
   r = NetworkConfiguration.new (NetworkConfiguration.type r))
  ∧ (NetworkConfiguration.dhcp r = true →
     NetworkConfiguration.ip r = VNone
     ∧ NetworkConfiguration.gateway r = VNone
     ∧ NetworkConfiguration.dns r = VNone)
  ∧ (NetworkConfiguration.dhcp r = false →
     NetworkConfiguration.type r = MANUAL).
Proof.
  intros Hparse. destruct config as [| | | | | |d]; try discriminate.
  destruct (parse_arguments_returns_shape gettext d r Hparse)
    as [-> | [-> | [[nic ->] | (nic & a & gw & sv & -> & _)]]]; cbn;
    repeat split; try reflexivity; try discriminate; now intros [].
Qed.

Lemma parse_arguments_record_invariant_witness :
  let d : gmap string PyVal :=
    list_to_map [("type", VStr "nm"); ("ip", VStr "10.0.0.2/24")] in
  NetworkConfiguration.new NM
  = NetworkConfiguration.new (NetworkConfiguration.type (NetworkConfiguration.new NM)).
Proof.
  intros d.
  refine (proj1 (parse_arguments_record_invariant id (VDict d)
                   (NetworkConfiguration.new NM) eq_refl) _).
  discriminate.
Defined.

(** X4.  A record parsed from a mapping with an explicit (truthy) type
    never has DHCP off without an address: if [dhcp] is false, [ip] is
    truthy. *)
Theorem parse_arguments_typed_static_has_address (gettext : string -> string)
    (d : gmap string PyVal) (r : NetworkConfiguration.t) :
  NetworkConfiguration.parse_arguments gettext (VDict d) = Return (Some r) →
  truthy_field d "type" = true →
  NetworkConfiguration.dhcp r = false →
  truthy (NetworkConfiguration.ip r) = true.
Proof.
  intros Hparse Hfield Hstatic.
  destruct (parse_arguments_returns_shape gettext d r Hparse)
    as [-> | [-> | [[nic ->] | (nic & a & gw & sv & -> & Haddr)]]];
    try discriminate.
  exact (Haddr Hfield).
Qed.

Lemma parse_arguments_typed_static_has_address_witness :
  let d : gmap string PyVal :=
    list_to_map [("type", VStr "manual"); ("ip", VStr "10.0.0.2/24");
                 ("dns", VList [VStr "9.9.9.9"])] in
  truthy (VStr "10.0.0.2/24") = true.
Proof.
  intros d.
  exact (parse_arguments_typed_static_has_address id d
           (static_record (VStr "") (VStr "10.0.0.2/24") (VStr "")
              (VList [VStr "9.9.9.9"]))
           eq_refl eq_refl eq_refl).
Defined.

(** ** json then parse_arguments *)

Lemma json_lookups (r : NetworkConfiguration.t) :
  ∃ d : gmap string PyVal,
    NetworkConfiguration.json r = VDict d
    ∧ d !! "type" = Some (VEnum (NetworkConfiguration.type r))
    ∧ d !! "iface" = Some (NetworkConfiguration.iface r)
    ∧ d !! "ip" = Some (NetworkConfiguration.ip r)
    ∧ d !! "dhcp" = Some (VBool (NetworkConfiguration.dhcp r))
    ∧ d !! "gateway" = Some (NetworkConfiguration.gateway r)
    ∧ d !! "dns" = Some (NetworkConfiguration.dns r).
Proof. eexists. repeat split. Qed.

Lemma parse_arguments_json (gettext : string -> string)
    (r : NetworkConfiguration.t) :
  NetworkConfiguration.parse_arguments gettext (NetworkConfiguration.json r)
  = match NetworkConfiguration.type r with
    | MANUAL =>
        if NetworkConfiguration.dhcp r
           || negb (truthy (NetworkConfiguration.ip r)
                    || truthy (NetworkConfiguration.gateway r)
                    || truthy (NetworkConfiguration.dns r))
        then Return (Some (automatic_record (NetworkConfiguration.iface r)))
        else if truthy (NetworkConfiguration.ip r) then
          Return (Some (static_record (NetworkConfiguration.iface r)
                          (NetworkConfiguration.ip r)
                          (NetworkConfiguration.gateway r)
                          (NetworkConfiguration.dns r)))
        else Exit NetworkConfiguration.missing_ip_line 1
    | ty => Return (Some (NetworkConfiguration.new ty))
    end.
Proof.
  destruct (json_lookups r)
    as (d & -> & Hty & Hnic & Hip & Hdhcp & Hgw & Hdns).
  rewrite (parse_arguments_typed gettext d _ Hty)
    by now destruct (NetworkConfiguration.type r).
  unfold typed_resolution. cbn [NicType_call].
  destruct (NetworkConfiguration.type r); [reflexivity..|].
  unfold manual_resolution, truthy_field.
  now rewrite Hnic, Hip, Hdhcp, Hgw, Hdns.
Qed.

(** X5.  A record that [parse_arguments] returned, written out with [json]
    and parsed again, is returned unchanged, provided it has DHCP on or a
    truthy address; so for every record parsed from a mapping with an
    explicit type. *)
Theorem parse_arguments_json_stable (gettext : string -> string)
    (d : gmap string PyVal) (r : NetworkConfiguration.t) :
  NetworkConfiguration.parse_arguments gettext (VDict d) = Return (Some r) →
  truthy_field d "type" = true
  ∨ NetworkConfiguration.dhcp r = true
  ∨ truthy (NetworkConfiguration.ip r) = true →
  NetworkConfiguration.parse_arguments gettext (NetworkConfiguration.json r)
  = Return (Some r).
Proof.
  intros Hparse Hcase. rewrite parse_arguments_json.
  destruct (parse_arguments_returns_shape gettext d r Hparse)
    as [-> | [-> | [[nic ->] | (nic & a & gw & sv & -> & Haddr)]]];
    try reflexivity.
  assert (Ha : truthy a = true)
    by (destruct Hcase as [H | [H | H]]; [auto | discriminate H | exact H]).
  cbn. now rewrite Ha.
Qed.

Lemma parse_arguments_json_stable_witness :
  let d : gmap string PyVal :=
    list_to_map [("nic", VStr "eth0"); ("ip", VStr "10.0.0.2/24")] in
  let r := static_record (VStr "eth0") (VStr "10.0.0.2/24") (VStr "")
             (VList []) in
  NetworkConfiguration.parse_arguments id (NetworkConfiguration.json r)
  = Return (Some r).
Proof.
  intros d r.
  exact (parse_arguments_json_stable id d r eq_refl
           (or_intror (or_intror eq_refl))).
Defined.

(** X6.  The rules for a mapping without type do not check the address: an
    [ip] key with a falsy value (empty string, [None]) still gives a manual
    record with DHCP off and that address.  Written out with [json] and
    parsed again, this record does not come back: the call exits with the
    missing address line when the gateway or the DNS list is truthy, and
    otherwise returns a record with DHCP on. *)
Theorem parse_arguments_legacy_empty_address (gettext : string -> string)
    (d : gmap string PyVal) (a : PyVal) :
  truthy_field d "type" = false →
  truthy_field d "NetworkManager" = false →
  d !! "ip" = Some a →
  truthy a = false →
  ∃ r, NetworkConfiguration.parse_arguments gettext (VDict d) = Return (Some r)
       ∧ NetworkConfiguration.type r = MANUAL
       ∧ NetworkConfiguration.dhcp r = false
       ∧ NetworkConfiguration.ip r = a
       ∧ NetworkConfiguration.parse_arguments gettext
           (NetworkConfiguration.json r)
         = (if truthy (default (VStr "") (d !! "gateway"))
               || truthy (default (VList []) (d !! "dns"))
            then Exit NetworkConfiguration.missing_ip_line 1
            else Return (Some (automatic_record
                                 (default (VStr "") (d !! "nic")))))
       ∧ NetworkConfiguration.parse_arguments gettext
           (NetworkConfiguration.json r) ≠ Return (Some r).
Proof.
  intros Hty Hnm Hip Ha.
  rewrite (parse_arguments_legacy gettext d Hty). unfold legacy_resolution.
  rewrite Hnm, Hip. eexists. split; [reflexivity|].
  rewrite parse_arguments_json. cbn. rewrite Ha. cbn.
  repeat split.
  - now destruct (truthy (default (VStr "") (d !! "gateway"))
                  || truthy (default (VList []) (d !! "dns"))).
  - destruct (truthy (default (VStr "") (d !! "gateway"))
              || truthy (default (VList []) (d !! "dns"))); discriminate.
Qed.

Lemma parse_arguments_legacy_empty_address_witness :
  let d : gmap string PyVal :=
    list_to_map [("nic", VStr "eth0"); ("ip", VStr "");
                 ("gateway", VStr "10.0.0.1")] in
  ∃ r, NetworkConfiguration.parse_arguments id (VDict d) = Return (Some r)
       ∧ NetworkConfiguration.parse_arguments id (NetworkConfiguration.json r)
         = Exit NetworkConfiguration.missing_ip_line 1.
Proof.
  intros d.
  destruct (parse_arguments_legacy_empty_address id d (VStr "")
              eq_refl eq_refl eq_refl eq_refl)
    as (r & Hparse & _ & _ & _ & Hagain & _).
  exists r. split; [exact Hparse|]. exact Hagain.
Defined.

(** ** The accessors against the instance dictionary *)



(** X8.  [get] with a default other than [None] never returns [None]. *)
Theorem get_never_None (self : NetworkConfiguration.t) (key : string)
    (default_value v : PyVal) :
  default_value ≠ VNone →
  NetworkConfiguration.get self key default_value = Return v →
  v ≠ VNone.
Proof.
  intros Hdef. unfold NetworkConfiguration.get. cbn [mbind outcome_mbind].
  destruct (NetworkConfiguration.__getitem__ self key) as [w| |];
    cbn [outcome_bind]; [|discriminate..].
  destruct w; intros [= <-]; congruence.
Qed.

Lemma get_never_None_witness :
  VStr "auto" ≠ VNone.
Proof.
  refine (get_never_None (NetworkConfiguration.new ISO) "gateway"
            (VStr "auto") (VStr "auto") _ eq_refl).
  discriminate.
Defined.

(** ** parse_arguments then config_installer *)

(** X10.  For a record parsed from a mapping, [config_installer] calls
    [configure_nic] only with that record, and only when it is manual; when
    the mapping has an explicit type, a record handed to [configure_nic]
    with DHCP off has a truthy address.  Without [configure_nic] no
    systemd service is enabled. *)
Theorem config_installer_after_parse (gettext : string -> string)
    (d : gmap string PyVal) (r : NetworkConfiguration.t) :
  NetworkConfiguration.parse_arguments gettext (VDict d) = Return (Some r) →
  (∀ nic,
     NetworkConfiguration.configure_nic nic
       ∈ NetworkConfiguration.config_installer r →
     nic = r
     ∧ NetworkConfiguration.type r = MANUAL
     ∧ (truthy_field d "type" = true →
        NetworkConfiguration.dhcp r = false →
        truthy (NetworkConfiguration.ip r) = true))
  ∧ (NetworkConfiguration.type r = MANUAL
     ↔ (NetworkConfiguration.configure_nic r
          ∈ NetworkConfiguration.config_installer r))
  ∧ (NetworkConfiguration.type r ≠ MANUAL →
     (NetworkConfiguration.enable_service "systemd-networkd"
        ∉ NetworkConfiguration.config_installer r)
     ∧ (NetworkConfiguration.enable_service "systemd-resolved"
          ∉ NetworkConfiguration.config_installer r)).
Proof.
  intros Hparse.
  assert (Haddr : truthy_field d "type" = true →
                  NetworkConfiguration.dhcp r = false →
                  truthy (NetworkConfiguration.ip r) = true).
  { intros Hfield Hstatic.
    destruct (parse_arguments_returns_shape gettext d r Hparse)
      as [-> | [-> | [[nic ->] | (nic & a & gw & sv & -> & Ha)]]];
      try discriminate.
    exact (Ha Hfield). }
  unfold NetworkConfiguration.config_installer, NetworkConfiguration.is_iso,
    NetworkConfiguration.is_network_manager, NetworkConfiguration.is_manual.
  destruct (NetworkConfiguration.type r) eqn:Hty.
  - split; [|split].
    + intros nic Hin. rewrite !elem_of_cons, elem_of_nil in Hin.
      destruct Hin as [[=] | []].
    + rewrite !elem_of_cons, elem_of_nil.
      split; [discriminate | intros [[=] | []]].
    + intros _. rewrite !elem_of_cons, !elem_of_nil.
      split; intros [[=] | []].
  - split; [|split].
    + intros nic Hin. rewrite !elem_of_cons, elem_of_nil in Hin.
      destruct Hin as [[=] | [[=] | []]].
    + rewrite !elem_of_cons, elem_of_nil.
      split; [discriminate | intros [[=] | [[=] | []]]].
    + intros _. rewrite !elem_of_cons, !elem_of_nil.
      split; intros [[=] | [[=] | []]].
  - split; [|split].
    + intros nic Hin. rewrite !elem_of_cons, elem_of_nil in Hin.
      destruct Hin as [[= ->] | [[=] | [[=] | []]]]. auto.
    + split; [intros _; apply elem_of_cons; now left | reflexivity].
    + intros []. reflexivity.
Qed.

Lemma config_installer_after_parse_witness :
  let d : gmap string PyVal :=
    list_to_map [("NetworkManager", VBool true); ("ip", VStr "10.0.0.2/24")] in
  NetworkConfiguration.enable_service "systemd-networkd"
    ∉ NetworkConfiguration.config_installer (NetworkConfiguration.new NM).
Proof.
  intros d.
  refine (proj1 (proj2 (proj2 (config_installer_after_parse id d
                   (NetworkConfiguration.new NM) eq_refl)) _)).
  discriminate.
Defined.

(** ** Insertion-ordered dictionaries: keys, order and size *)

Lemma od_get_None_keys (k : string) (d : odict) :
  od_get k d = None ↔ k ∉ od_keys d.
Proof.
  unfold od_keys. induction d as [|[k' v'] d IH]; cbn.
  - split; [intros _; apply not_elem_of_nil | reflexivity].
  - rewrite not_elem_of_cons. destruct (String.eqb_spec k' k) as [->|Hne].
    + split; [discriminate | now intros [[] _]].
    + rewrite IH. split; [intros H; split; [congruence | exact H] | now intros [_ H]].
Qed.

Lemma od_get_Some_keys (k : string) (d : odict) :
  is_Some (od_get k d) ↔ k ∈ od_keys d.
Proof.
  destruct (od_get k d) eqn:Hget.
  - split; [intros _ | eauto].
    destruct (decide (k ∈ od_keys d)) as [Hin|Hout]; [exact Hin|].
    apply od_get_None_keys in Hout. congruence.
  - split; [now intros [? ?] | intros Hin].
    apply od_get_None_keys in Hget. now destruct Hget.
Qed.

Lemma od_set_absent (k : string) (v : PyVal) (d : odict) :
  od_get k d = None → od_set k v d = (d ++ [(k, v)])%list.
Proof.
  induction d as [|[k' v'] d IH]; cbn; [reflexivity|].
  destruct (String.eqb k' k); [discriminate|].
  intros Hget. now rewrite IH.
Qed.

Lemma od_set_present_keys (k : string) (v : PyVal) (d : odict) :
  is_Some (od_get k d) → od_keys (od_set k v d) = od_keys d.
Proof.
  unfold od_keys. induction d as [|[k' v'] d IH]; cbn.
  - now intros [? ?].
  - destruct (String.eqb k' k); [reflexivity|].
    intros Hget. cbn. now rewrite IH.
Qed.

Lemma od_set_twice (k : string) (v : PyVal) (d : odict) :
  od_set k v (od_set k v d) = od_set k v d.
Proof. apply od_set_same, od_get_set_eq. Qed.

Lemma od_set_NoDup (k : string) (v : PyVal) (d : odict) :
  NoDup (od_keys d) → NoDup (od_keys (od_set k v d)).
Proof.
  intros Hnd. destruct (od_get k d) eqn:Hget.
  - now rewrite od_set_present_keys by eauto.
  - rewrite (od_set_absent k v d Hget). unfold od_keys in *.
    rewrite map_app. cbn. apply NoDup_app. split; [exact Hnd|].
    split; [|apply NoDup_singleton].
    intros x Hx Hin. apply list_elem_of_singleton in Hin as ->.
    now apply od_get_None_keys in Hget.
Qed.

Lemma od_update_NoDup (d other : odict) :
  NoDup (od_keys d) → NoDup (od_keys (od_update d other)).
Proof.
  unfold od_update. revert d.
  induction other as [|[k v] other IH]; intros d Hnd; cbn; [exact Hnd|].
  apply IH. now apply od_set_NoDup.
Qed.

Lemma od_del_keys (k : string) (d d' : odict) :
  od_del k d = Some d' →
  ∃ front back, d = (front ++ back)%list ∧ d' = (front ++ tail back)%list
                ∧ head (od_keys back) = Some k ∧ k ∉ od_keys front.
Proof.
  revert d'. induction d as [|[k0 v0] d IH]; cbn; [discriminate|].
  intros d'. destruct (String.eqb_spec k0 k) as [->|Hne].
  - intros [= <-]. exists [], ((k, v0) :: d). cbn.
    repeat split. apply not_elem_of_nil.
  - destruct (od_del k d) as [r|]; [|discriminate].
    intros [= <-]. destruct (IH r eq_refl) as (front & back & -> & -> & Hhd & Hout).
    exists ((k0, v0) :: front), back. cbn. repeat split; [exact Hhd|].
    apply not_elem_of_cons. split; [congruence | exact Hout].
Qed.

Lemma od_del_NoDup (k : string) (d d' : odict) :
  od_del k d = Some d' →
  NoDup (od_keys d) →
  NoDup (od_keys d') ∧ od_get k d' = None ∧ length d = S (length d').
Proof.
  intros Hdel Hnd.
  destruct (od_del_keys k d d' Hdel) as (front & back & -> & -> & Hhd & Hout).
  destruct back as [|[k1 v1] back]; [discriminate|].
  cbn in Hhd. injection Hhd as ->. cbn [tail].
  unfold od_keys in *. rewrite map_app in Hnd. cbn in Hnd.
  apply NoDup_app in Hnd as (Hfront & Hcross & Hback).
  apply NoDup_cons in Hback as [Hk Hback].
  split; [|split].
  - rewrite map_app. apply NoDup_app. split; [exact Hfront|].
    split; [|exact Hback].
    intros x Hx Hin. apply (Hcross x Hx). now apply elem_of_cons; right.
  - apply od_get_None_keys. unfold od_keys. rewrite map_app.
    rewrite elem_of_app. now intros [?|?].
  - rewrite !length_app. cbn. lia.
Qed.

(** ** The scratch record from creation to commit *)

Lemma init_returns (parameters : option odict) (act : option string)
    (menu : SubvolumeMenu.t) :
  SubvolumeMenu.__init__ parameters act = Return menu →
  SubvolumeMenu.data menu = parameters
  ∧ SubvolumeMenu.action menu = act
  ∧ SubvolumeMenu.cancel_selection menu = VNone.
Proof.
  unfold SubvolumeMenu.__init__. cbn [mbind outcome_mbind].
  destruct (match parameters with Some ((_, _) :: _) => _ | _ => _ end);
    cbn [outcome_bind mret outcome_ret]; [|discriminate..].
  intros [= <-]. repeat split.
Qed.

Lemma edit_committed
    (session : SubvolumeMenu.t -> SubvolumeMenu.DataStore * PyVal)
    (tgt : odict) (act : option string) (menu : SubvolumeMenu.t)
    (store : SubvolumeMenu.DataStore) (cancel : PyVal) (key : string) :
  SubvolumeMenu.__init__ (Some tgt) act = Return menu →
  session menu = (store, cancel) →
  truthy cancel = false →
  SubvolumeMenu.name store = Some key →
  key ≠ "" →
  SubvolumeList.edit session (Some tgt) act
  = Return (Some (od_set key (VDict (SubvolumeMenu.value_of store)) tgt)).
Proof.
  intros Hinit Hsession Hcancel Hname Hkey.
  unfold SubvolumeList.edit. rewrite Hinit.
  cbn [mbind outcome_mbind outcome_bind]. rewrite Hsession.
  destruct (init_returns _ _ _ Hinit) as (-> & -> & _).
  now rewrite (exit_callback_commit tgt act store cancel key Hcancel Hname Hkey).
Qed.

(** The menu that Add starts from: nothing is seeded. *)
Lemma init_empty (act : option string) :
  SubvolumeMenu.__init__ (Some []) act
  = Return {| SubvolumeMenu.data := Some []; SubvolumeMenu.action := act;
              SubvolumeMenu.ds :=
                {| SubvolumeMenu.name := None;
                   SubvolumeMenu.mountpoint := VNone;
                   SubvolumeMenu.options := VNone |};
              SubvolumeMenu.cancel_selection := VNone |}.
Proof. reflexivity. Qed.

(** ** exec_action: Add, Edit and Copy that commit *)

(** X11.  Add that is not abandoned stores the scratch record under the
    name entered, leaving every other entry as it was: a new name goes to
    the end of the collection, an existing name is overwritten in place
    without any error, the keys and their order unchanged. *)
Theorem exec_action_add_commits (gettext : string -> string)
    (session : SubvolumeMenu.t -> SubvolumeMenu.DataStore * PyVal)
    (d : odict) (tgt : option odict) (act : option string)
    (store : SubvolumeMenu.DataStore) (cancel : PyVal) (key : string) :
  SubvolumeList.action_is act (gettext "Delete") = false →
  SubvolumeList.action_is act (gettext "Add") = true →
  session {| SubvolumeMenu.data := Some []; SubvolumeMenu.action := act;
             SubvolumeMenu.ds :=
               {| SubvolumeMenu.name := None;
                  SubvolumeMenu.mountpoint := VNone;
                  SubvolumeMenu.options := VNone |};
             SubvolumeMenu.cancel_selection := VNone |}
  = (store, cancel) →
  truthy cancel = false →
  SubvolumeMenu.name store = Some key →
  key ≠ "" →
  ∃ d',
    SubvolumeList.exec_action gettext session
      {| SubvolumeList.data := d; SubvolumeList.target := tgt;
         SubvolumeList.action := act |}
    = (Return true,
       {| SubvolumeList.data := d';
          SubvolumeList.target :=
            Some [(key, VDict (SubvolumeMenu.value_of store))];
          SubvolumeList.action := act |})
    ∧ od_get key d' = Some (VDict (SubvolumeMenu.value_of store))
    ∧ (∀ k, key ≠ k → od_get k d' = od_get k d)
    ∧ (od_get key d = None →
       d' = (d ++ [(key, VDict (SubvolumeMenu.value_of store))])%list)
    ∧ (is_Some (od_get key d) →
       od_keys d' = od_keys d ∧ length d' = length d).
Proof.
  intros Hdel Hadd Hsession Hcancel Hname Hkey.
  exists (od_set key (VDict (SubvolumeMenu.value_of store)) d).
  split; [|split; [|split; [|split]]].
  - unfold SubvolumeList.exec_action.
    cbn [SubvolumeList.action SubvolumeList.target SubvolumeList.data].
    rewrite Hdel, Hadd.
    cbn [SubvolumeList.action SubvolumeList.target SubvolumeList.data].
    now rewrite (edit_committed session [] act _ store cancel key
                   (init_empty act) Hsession Hcancel Hname Hkey).
  - apply od_get_set_eq.
  - intros k Hne. now apply od_get_set_ne.
  - apply od_set_absent.
  - intros Hpresent.
    pose proof (od_set_present_keys key
                  (VDict (SubvolumeMenu.value_of store)) d Hpresent) as Hkeys.
    split; [exact Hkeys|].
    apply (f_equal length) in Hkeys. unfold od_keys in Hkeys.
    now rewrite !length_map in Hkeys.
Qed.

Lemma exec_action_add_commits_witness :
  let store := {| SubvolumeMenu.name := Some "root";
                  SubvolumeMenu.mountpoint := VStr "/mnt/root";
                  SubvolumeMenu.options := VNone |} in
  ∃ d',
    SubvolumeList.exec_action id (answers store)
      {| SubvolumeList.data := [("root", VStr "/"); ("home", VStr "/home")];
         SubvolumeList.target := None;
         SubvolumeList.action := Some "Add" |}
    = (Return true,
       {| SubvolumeList.data := d';
          SubvolumeList.target :=
            Some [("root", VDict (SubvolumeMenu.value_of store))];
          SubvolumeList.action := Some "Add" |})
    ∧ od_keys d' = ["root"; "home"].
Proof.
  intros store.
  destruct (exec_action_add_commits id (answers store)
              [("root", VStr "/"); ("home", VStr "/home")] None (Some "Add")
              store VNone "root" eq_refl eq_refl eq_refl eq_refl eq_refl
              ltac:(discriminate))
    as (d' & Hexec & _ & _ & _ & Hsame).
  exists d'. split; [exact Hexec|].
  exact (proj1 (Hsame (ex_intro _ (VStr "/") eq_refl))).
Defined.

Lemma value_of_other (store : SubvolumeMenu.DataStore) (key : string) :
  key ≠ "mountpoint" → key ≠ "options" →
  SubvolumeMenu.value_of store !! key = None.
Proof.
  intros Hmp Hopt. unfold SubvolumeMenu.value_of.
  destruct (truthy (SubvolumeMenu.mountpoint store)),
           (truthy (SubvolumeMenu.options store));
    now simplify_map_eq.
Qed.

(** What one update with the target of an edited entry does. *)
Lemma od_update_edited (d : odict) (k k' : string) (v value : PyVal) :
  od_get k d = Some v →
  od_update d (od_set k' value [(k, v)]) = od_set k' value d.
Proof.
  intros Hget. cbn [od_set].
  destruct (String.eqb_spec k k') as [->|Hne]; cbn [od_update fold_left fst snd].
  - reflexivity.
  - now rewrite (od_set_same k v d Hget).
Qed.

(** X12.  Edit or Copy of an entry [(k, v)] of the collection, not
    abandoned and ending with the name [k']: the collection gets the
    scratch record under [k'] and every other key keeps its value.  So a
    changed name never removes or renames the entry [k]: it stays beside
    the new one.  The value stored holds nothing but the mountpoint and the
    options: other keys of the mapping [v] are not carried over. *)
Theorem exec_action_edit_commits (gettext : string -> string)
    (session : SubvolumeMenu.t -> SubvolumeMenu.DataStore * PyVal)
    (d : odict) (k k' : string) (v : PyVal) (act : option string)
    (menu : SubvolumeMenu.t) (store : SubvolumeMenu.DataStore)
    (cancel : PyVal) :
  SubvolumeList.action_is act (gettext "Delete") = false →
  SubvolumeList.action_is act (gettext "Add") = false →
  od_get k d = Some v →
  SubvolumeMenu.__init__ (Some [(k, v)]) act = Return menu →
  session menu = (store, cancel) →
  truthy cancel = false →
  SubvolumeMenu.name store = Some k' →
  k' ≠ "" →
  ∃ d',
    SubvolumeList.exec_action gettext session
      {| SubvolumeList.data := d; SubvolumeList.target := Some [(k, v)];
         SubvolumeList.action := act |}
    = (Return true,
       {| SubvolumeList.data := d';
          SubvolumeList.target :=
            Some (od_set k' (VDict (SubvolumeMenu.value_of store)) [(k, v)]);
          SubvolumeList.action := act |})
    ∧ od_get k' d' = Some (VDict (SubvolumeMenu.value_of store))
    ∧ (∀ x, k' ≠ x → od_get x d' = od_get x d)
    ∧ (∀ key, key ≠ "mountpoint" → key ≠ "options" →
       SubvolumeMenu.value_of store !! key = None).
Proof.
  intros Hdel Hadd Hget Hinit Hsession Hcancel Hname Hkey.
  exists (od_set k' (VDict (SubvolumeMenu.value_of store)) d).
  split; [|split; [|split]].
  - unfold SubvolumeList.exec_action.
    cbn [SubvolumeList.action SubvolumeList.target SubvolumeList.data].
    rewrite Hdel, Hadd.
    cbn [SubvolumeList.action SubvolumeList.target SubvolumeList.data].
    rewrite (edit_committed session [(k, v)] act menu store cancel k'
               Hinit Hsession Hcancel Hname Hkey).
    cbn [SubvolumeList.data]. now rewrite (od_update_edited d k k' v _ Hget).
  - apply od_get_set_eq.
  - intros x Hne. now apply od_get_set_ne.
  - intros key. apply value_of_other.
Qed.

Lemma exec_action_edit_commits_witness :
  let v := VDict {[ "mountpoint" := VStr "/"; "compress" := VBool true ]} in
  let d : odict := [("root", v)] in
  let store := {| SubvolumeMenu.name := Some "backup";
                  SubvolumeMenu.mountpoint := VStr "/";
                  SubvolumeMenu.options := VNone |} in
  ∃ d',
    SubvolumeList.exec_action id (answers store)
      {| SubvolumeList.data := d; SubvolumeList.target := Some [("root", v)];
         SubvolumeList.action := Some "Copy" |}
    = (Return true,
       {| SubvolumeList.data := d';
          SubvolumeList.target :=
            Some [("root", v); ("backup", VDict {[ "mountpoint" := VStr "/" ]})];
          SubvolumeList.action := Some "Copy" |})
    ∧ od_get "root" d' = Some v.
Proof.
  intros v d store.
  destruct (exec_action_edit_commits id (answers store) d "root" "backup" v
              (Some "Copy") _ store VNone eq_refl eq_refl eq_refl eq_refl
              eq_refl eq_refl eq_refl ltac:(discriminate))
    as (d' & Hexec & _ & Hother & _).
  exists d'. split; [exact Hexec|].
  rewrite (Hother "root") by discriminate. reflexivity.
Defined.

(** ** C8 *)

(** [exec_action] for every action but Delete: the menu is opened on the
    target (emptied first for Add), and what it leaves of the target is
    written into the collection. *)
Lemma exec_action_not_delete (gettext : string -> string)
    (session : SubvolumeMenu.t -> SubvolumeMenu.DataStore * PyVal)
    (d : odict) (tgt : option odict) (act : option string) :
  SubvolumeList.action_is act (gettext "Delete") = false →
  let opened :=
    if SubvolumeList.action_is act (gettext "Add") then Some [] else tgt in
  SubvolumeList.exec_action gettext session
    {| SubvolumeList.data := d; SubvolumeList.target := tgt;
       SubvolumeList.action := act |}
  = match SubvolumeList.edit session opened act with
    | Return (Some entries) =>
        (Return true,
         {| SubvolumeList.data := od_update d entries;
            SubvolumeList.target := Some entries;
            SubvolumeList.action := act |})
    | Return None =>
        (Raise TypeError,
         {| SubvolumeList.data := d; SubvolumeList.target := None;
            SubvolumeList.action := act |})
    | Raise e =>
        (Raise e,
         {| SubvolumeList.data := d; SubvolumeList.target := opened;
            SubvolumeList.action := act |})
    | Exit l c =>
        (Exit l c,
         {| SubvolumeList.data := d; SubvolumeList.target := opened;
            SubvolumeList.action := act |})
    end.
Proof.
  intros Hdel opened. subst opened. unfold SubvolumeList.exec_action.
  cbn [SubvolumeList.action SubvolumeList.target SubvolumeList.data].
  rewrite Hdel.
  destruct (SubvolumeList.action_is act (gettext "Add"));
    cbn [SubvolumeList.action SubvolumeList.target SubvolumeList.data];
    match goal with
    | |- context [SubvolumeList.edit session ?p ?a] =>
        destruct (SubvolumeList.edit session p a) as [[entries|]| |]
    end; reflexivity.
Qed.

(** Writing back a target that is empty, or one entry of the collection,
    after the scratch record went into it, is one assignment. *)
Lemma od_update_opened (d entries : odict) (key : string) (value : PyVal) :
  entries = [] ∨ (∃ k v, entries = [(k, v)] ∧ od_get k d = Some v) →
  od_update d (od_set key value entries) = od_set key value d.
Proof.
  intros [-> | (k & v & -> & Hget)]; [reflexivity|].
  now apply od_update_edited.
Qed.

Lemma od_update_unopened (d entries : odict) :
  entries = [] ∨ (∃ k v, entries = [(k, v)] ∧ od_get k d = Some v) →
  od_update d entries = d.
Proof.
  intros [-> | (k & v & -> & Hget)]; [reflexivity|].
  rewrite od_update_one. now apply od_set_same.
Qed.

(** C8.  An edit session run by [exec_action] (any action but Delete) on
    the collection [d]: the menu is opened on [entries], the target of the
    list manager, which is empty (always so for Add) or one entry of [d];
    the session leaves the scratch record [store] and the selection
    [cancel] of the entry Cancel.
    - If Cancel is selected, or the name of the scratch record is missing
      or empty, [exec_action] returns with the collection exactly [d] and
      the target as it was opened.
    - Otherwise the scratch record is merged into the collection: [d] gets
      the entry of the name, a mapping that holds the mountpoint and the
      options when they are truthy, whatever they are (nothing else about
      them is checked); every other entry of [d] is untouched.
    - So the collection differs from [d] afterwards only if Cancel is not
      selected and the name is not empty. *)
Theorem exec_action_session_merges_iff (gettext : string -> string)
    (session : SubvolumeMenu.t -> SubvolumeMenu.DataStore * PyVal)
    (d entries : odict) (tgt : option odict) (act : option string)
    (menu : SubvolumeMenu.t) (store : SubvolumeMenu.DataStore)
    (cancel : PyVal) :
  SubvolumeList.action_is act (gettext "Delete") = false →
  (if SubvolumeList.action_is act (gettext "Add") then Some [] else tgt)
  = Some entries →
  entries = [] ∨ (∃ k v, entries = [(k, v)] ∧ od_get k d = Some v) →
  SubvolumeMenu.__init__ (Some entries) act = Return menu →
  session menu = (store, cancel) →
  let self := {| SubvolumeList.data := d; SubvolumeList.target := tgt;
                 SubvolumeList.action := act |} in
  (truthy cancel = true ∨ SubvolumeMenu.name store = None
   ∨ SubvolumeMenu.name store = Some "" →
   SubvolumeList.exec_action gettext session self
   = (Return true,
      {| SubvolumeList.data := d; SubvolumeList.target := Some entries;
         SubvolumeList.action := act |}))
  ∧ (truthy cancel = false →
     ∀ key, SubvolumeMenu.name store = Some key → key ≠ "" →
     ∃ d' value,
       SubvolumeList.exec_action gettext session self
       = (Return true,
          {| SubvolumeList.data := d';
             SubvolumeList.target :=
               Some (od_update entries [(key, VDict value)]);
             SubvolumeList.action := act |})
       ∧ d' = od_update d [(key, VDict value)]
       ∧ od_get key d' = Some (VDict value)
       ∧ (∀ k, key ≠ k → od_get k d' = od_get k d)
       ∧ value !! "mountpoint"
         = (if truthy (SubvolumeMenu.mountpoint store)
            then Some (SubvolumeMenu.mountpoint store) else None)
       ∧ value !! "options"
         = (if truthy (SubvolumeMenu.options store)
            then Some (SubvolumeMenu.options store) else None))
  ∧ (SubvolumeList.data (snd (SubvolumeList.exec_action gettext session self))
     ≠ d →
     truthy cancel = false
     ∧ ∃ key, SubvolumeMenu.name store = Some key ∧ key ≠ "").
Proof.
  intros Hdel Hopened Hentries Hinit Hsession self. subst self.
  assert (Habort :
    truthy cancel = true ∨ SubvolumeMenu.name store = None
    ∨ SubvolumeMenu.name store = Some "" →
    SubvolumeList.exec_action gettext session
      {| SubvolumeList.data := d; SubvolumeList.target := tgt;
         SubvolumeList.action := act |}
    = (Return true,
       {| SubvolumeList.data := d; SubvolumeList.target := Some entries;
          SubvolumeList.action := act |})).
  { intros Hcase.
    rewrite (exec_action_not_delete gettext session d tgt act Hdel), Hopened.
    rewrite (edit_aborted session (Some entries) act menu Hinit).
    - now rewrite (od_update_unopened d entries Hentries).
    - unfold aborts. rewrite Hsession. cbn [fst snd].
      destruct Hcase as [-> | [-> | ->]]; auto. }
  split; [exact Habort|]. split.
  - intros Hcancel key Hname Hkey.
    exists (od_set key (VDict (SubvolumeMenu.value_of store)) d),
           (SubvolumeMenu.value_of store).
    split; [|split; [reflexivity|split; [|split; [|split]]]].
    + rewrite (exec_action_not_delete gettext session d tgt act Hdel), Hopened.
      rewrite (edit_committed session entries act menu store cancel key
                 Hinit Hsession Hcancel Hname Hkey).
      rewrite od_update_one.
      now rewrite (od_update_opened d entries key _ Hentries).
    + apply od_get_set_eq.
    + intros k Hne. now apply od_get_set_ne.
    + apply value_of_mountpoint.
    + apply value_of_options.
  - intros Hchanged. destruct (truthy cancel) eqn:Hcancel.
    + rewrite Habort in Hchanged by now left. now destruct Hchanged.
    + split; [reflexivity|].
      destruct (SubvolumeMenu.name store) as [key|] eqn:Hname.
      * exists key. split; [reflexivity|]. intros ->.
        rewrite Habort in Hchanged by (right; now right).
        now destruct Hchanged.
      * rewrite Habort in Hchanged by (right; now left).
        now destruct Hchanged.
Qed.

Lemma exec_action_session_merges_iff_witness :
  let d : odict := [("root", VStr "/")] in
  let store := {| SubvolumeMenu.name := Some "home";
                  SubvolumeMenu.mountpoint := VStr "/home";
                  SubvolumeMenu.options := VList [] |} in
  SubvolumeList.exec_action id (cancelled store)
    {| SubvolumeList.data := d; SubvolumeList.target := Some [("root", VStr "/")];
       SubvolumeList.action := Some "Edit" |}
  = (Return true,
     {| SubvolumeList.data := d;
        SubvolumeList.target := Some [("root", VStr "/")];
        SubvolumeList.action := Some "Edit" |})
  ∧ ∃ d' value,
      SubvolumeList.exec_action id (answers store)
        {| SubvolumeList.data := d; SubvolumeList.target := None;
           SubvolumeList.action := Some "Add" |}
      = (Return true,
         {| SubvolumeList.data := d';
            SubvolumeList.target := Some (od_update [] [("home", VDict value)]);
            SubvolumeList.action := Some "Add" |})
      ∧ od_get "home" d' = Some (VDict value)
      ∧ value !! "mountpoint" = Some (VStr "/home")
      ∧ value !! "options" = None
      ∧ od_get "root" d' = Some (VStr "/").
Proof.
  intros d store. split.
  - exact (proj1 (exec_action_session_merges_iff id (cancelled store) d
                    [("root", VStr "/")] (Some [("root", VStr "/")])
                    (Some "Edit") _ store (VBool true) eq_refl eq_refl
                    (or_intror (ex_intro _ "root"
                       (ex_intro _ (VStr "/") (conj eq_refl eq_refl))))
                    eq_refl eq_refl)
             (or_introl eq_refl)).
  - destruct (proj1 (proj2
        (exec_action_session_merges_iff id (answers store) d [] None
           (Some "Add") _ store VNone eq_refl eq_refl (or_introl eq_refl)
           (init_empty (Some "Add")) eq_refl))
        eq_refl "home" eq_refl ltac:(discriminate))
      as (d' & value & Hexec & _ & Hkey & Hother & Hmp & Hopts).
    exists d', value.
    split; [exact Hexec|]. split; [exact Hkey|].
    split; [exact Hmp|]. split; [exact Hopts|].
    rewrite (Hother "root") by discriminate. reflexivity.
Defined.

(** ** exec_action: what cannot be edited *)

(** X13.  With no target and an action other than Add, [exec_action] never
    returns: it raises ([KeyError] for Delete, and otherwise [TypeError]
    or [AttributeError], as the session ends) and leaves the list manager
    as it was. *)
Theorem exec_action_without_target_raises (gettext : string -> string)
    (session : SubvolumeMenu.t -> SubvolumeMenu.DataStore * PyVal)
    (d : odict) (act : option string) :
  SubvolumeList.action_is act (gettext "Delete") = true
  ∨ SubvolumeList.action_is act (gettext "Add") = false →
  ∃ e, SubvolumeList.exec_action gettext session
         {| SubvolumeList.data := d; SubvolumeList.target := None;
            SubvolumeList.action := act |}
       = (Raise e,
          {| SubvolumeList.data := d; SubvolumeList.target := None;
             SubvolumeList.action := act |})
       ∧ (e = KeyError ∨ e = TypeError ∨ e = AttributeError).
Proof.
  intros Hact. unfold SubvolumeList.exec_action.
  cbn [SubvolumeList.action SubvolumeList.target SubvolumeList.data].
  destruct (SubvolumeList.action_is act (gettext "Delete")) eqn:Hdel.
  - exists KeyError. split; [reflexivity | auto].
  - destruct Hact as [Hact | Hadd]; [discriminate|]. rewrite Hadd.
    cbn [SubvolumeList.action SubvolumeList.target SubvolumeList.data].
    unfold SubvolumeList.edit, SubvolumeMenu.__init__.
    cbn [mbind outcome_mbind outcome_bind mret outcome_ret].
    destruct (session _) as [store cancel].
    unfold SubvolumeMenu.exit_callback.
    cbn [SubvolumeMenu.cancel_selection SubvolumeMenu.ds SubvolumeMenu.data].
    destruct (truthy cancel); cbn [outcome_bind SubvolumeMenu.data];
      [exists TypeError; split; [reflexivity | auto]|].
    destruct (SubvolumeMenu.name_given (SubvolumeMenu.name store)) eqn:Hname;
      cbn [negb outcome_bind SubvolumeMenu.data];
      [|exists TypeError; split; [reflexivity | auto]].
    exists AttributeError. split; [|auto].
    now destruct (SubvolumeMenu.name store).
Qed.

Lemma exec_action_without_target_raises_witness :
  ∃ e, SubvolumeList.exec_action id untouched
         {| SubvolumeList.data := [("root", VStr "/")];
            SubvolumeList.target := None;
            SubvolumeList.action := Some "Edit" |}
       = (Raise e,
          {| SubvolumeList.data := [("root", VStr "/")];
             SubvolumeList.target := None;
             SubvolumeList.action := Some "Edit" |})
       ∧ (e = KeyError ∨ e = TypeError ∨ e = AttributeError).
Proof.
  exact (exec_action_without_target_raises id untouched [("root", VStr "/")]
           (Some "Edit") (or_intror eq_refl)).
Defined.

(** X14.  The editor opens an entry only if its value is a string or a
    mapping.  For any other value ([None], a number, a list) [__init__]
    raises [AttributeError], and so does [exec_action] for every action
    other than Delete and Add, before any prompt, the collection left as
    it was. *)
Theorem exec_action_edit_bad_value (gettext : string -> string)
    (session : SubvolumeMenu.t -> SubvolumeMenu.DataStore * PyVal)
    (d rest : odict) (k : string) (v : PyVal) (act : option string) :
  isinstance_str v = false →
  (∀ m, v ≠ VDict m) →
  SubvolumeMenu.__init__ (Some ((k, v) :: rest)) act = Raise AttributeError
  ∧ (SubvolumeList.action_is act (gettext "Delete") = false →
     SubvolumeList.action_is act (gettext "Add") = false →
     SubvolumeList.exec_action gettext session
       {| SubvolumeList.data := d; SubvolumeList.target := Some ((k, v) :: rest);
          SubvolumeList.action := act |}
     = (Raise AttributeError,
        {| SubvolumeList.data := d;
           SubvolumeList.target := Some ((k, v) :: rest);
           SubvolumeList.action := act |})).
Proof.
  intros Hstr Hmap.
  assert (Hinit : SubvolumeMenu.__init__ (Some ((k, v) :: rest)) act
                  = Raise AttributeError).
  { unfold SubvolumeMenu.__init__. rewrite Hstr.
    destruct v; try reflexivity; try discriminate. now destruct (Hmap d0). }
  split; [exact Hinit|]. intros Hdel Hadd.
  unfold SubvolumeList.exec_action.
  cbn [SubvolumeList.action SubvolumeList.target SubvolumeList.data].
  rewrite Hdel, Hadd.
  cbn [SubvolumeList.action SubvolumeList.target SubvolumeList.data].
  unfold SubvolumeList.edit. now rewrite Hinit.
Qed.

Lemma exec_action_edit_bad_value_witness :
  SubvolumeList.exec_action id untouched
    {| SubvolumeList.data := [("root", VNone)];
       SubvolumeList.target := Some [("root", VNone)];
       SubvolumeList.action := Some "Edit" |}
  = (Raise AttributeError,
     {| SubvolumeList.data := [("root", VNone)];
        SubvolumeList.target := Some [("root", VNone)];
        SubvolumeList.action := Some "Edit" |}).
Proof.
  refine (proj2 (exec_action_edit_bad_value id untouched [("root", VNone)] []
                   "root" VNone (Some "Edit") eq_refl _) eq_refl eq_refl).
  intros m. discriminate.
Defined.

(** ** exec_action: Delete of a key of the collection *)

(** X15.  Delete aimed at a key of a collection (whose keys are distinct,
    as those of a dictionary are) returns [True]; afterwards the key is
    gone, every other key has the value it had, and the collection has one
    entry less. *)
Theorem exec_action_delete_removes (gettext : string -> string)
    (session : SubvolumeMenu.t -> SubvolumeMenu.DataStore * PyVal)
    (d rest : odict) (k : string) (v : PyVal) :
  NoDup (od_keys d) →
  k ∈ od_keys d →
  ∃ d', SubvolumeList.exec_action gettext session
          {| SubvolumeList.data := d;
             SubvolumeList.target := Some ((k, v) :: rest);
             SubvolumeList.action := Some (gettext "Delete") |}
        = (Return true,
           {| SubvolumeList.data := d';
              SubvolumeList.target := Some ((k, v) :: rest);
              SubvolumeList.action := Some (gettext "Delete") |})
        ∧ od_get k d' = None
        ∧ (∀ k', k ≠ k' → od_get k' d' = od_get k' d)
        ∧ length d = S (length d').
Proof.
  intros Hnd Hin. apply od_get_Some_keys in Hin.
  destruct (exec_action_delete_present gettext session d rest k v Hin)
    as (d' & Hexec & Hdel & Hother).
  exists d'. destruct (od_del_NoDup k d d' Hdel Hnd) as (_ & Hgone & Hlen).
  auto.
Qed.

Lemma exec_action_delete_removes_witness :
  ∃ d', SubvolumeList.exec_action id untouched
          {| SubvolumeList.data := [("root", VStr "/"); ("home", VStr "/home")];
             SubvolumeList.target := Some [("root", VStr "/")];
             SubvolumeList.action := Some "Delete" |}
        = (Return true,
           {| SubvolumeList.data := d';
              SubvolumeList.target := Some [("root", VStr "/")];
              SubvolumeList.action := Some "Delete" |})
        ∧ od_get "root" d' = None
        ∧ od_get "home" d' = Some (VStr "/home").
Proof.
  destruct (exec_action_delete_removes id untouched
              [("root", VStr "/"); ("home", VStr "/home")] [] "root" (VStr "/"))
    as (d' & Hexec & Hgone & Hother & _).
  - unfold od_keys. cbn. apply NoDup_cons. split.
    + rewrite elem_of_cons, elem_of_nil. intros [[=] | []].
    + apply NoDup_singleton.
  - unfold od_keys. cbn. apply elem_of_cons. now left.
  - exists d'. split; [exact Hexec|]. split; [exact Hgone|].
    rewrite (Hother "home") by discriminate. reflexivity.
Defined.

(** ** exec_action: the keys stay distinct *)

(** X16.  Whatever the action, the target and the session, and whether the
    call returns or raises, a collection with distinct keys has distinct
    keys afterwards. *)
Theorem exec_action_keeps_keys_distinct (gettext : string -> string)
    (session : SubvolumeMenu.t -> SubvolumeMenu.DataStore * PyVal)
    (self : SubvolumeList.t) :
  NoDup (od_keys (SubvolumeList.data self)) →
  NoDup (od_keys (SubvolumeList.data
                    (snd (SubvolumeList.exec_action gettext session self)))).
Proof.
  intros Hnd. unfold SubvolumeList.exec_action.
  destruct (SubvolumeList.action_is (SubvolumeList.action self)
              (gettext "Delete")).
  - destruct (match SubvolumeList.target self with
              | Some ((k, _) :: _) => Some k
              | _ => None
              end) as [k|]; cbn [mbind option_bind]; [|exact Hnd].
    destruct (od_del k (SubvolumeList.data self)) as [d'|] eqn:Hdel;
      [|exact Hnd].
    cbn. exact (proj1 (od_del_NoDup k _ d' Hdel Hnd)).
  - destruct (SubvolumeList.action_is (SubvolumeList.action self)
                (gettext "Add"));
      cbn [SubvolumeList.action SubvolumeList.target SubvolumeList.data];
      match goal with
      | |- context [SubvolumeList.edit session ?p ?a] =>
          destruct (SubvolumeList.edit session p a) as [[entries|]| |]
      end; cbn; try exact Hnd; now apply od_update_NoDup.
Qed.

Lemma exec_action_keeps_keys_distinct_witness :
  NoDup (od_keys (SubvolumeList.data
    (snd (SubvolumeList.exec_action id
            (answers {| SubvolumeMenu.name := Some "root";
                        SubvolumeMenu.mountpoint := VStr "/";
                        SubvolumeMenu.options := VNone |})
            {| SubvolumeList.data := [("root", VStr "/old")];
               SubvolumeList.target := None;
               SubvolumeList.action := Some "Add" |})))).
Proof.
  apply exec_action_keeps_keys_distinct. cbn. apply NoDup_singleton.
Defined.

(** ** exec_action: a session that changes nothing *)

Lemma value_of_reseeded (n' : option string)
    (store : SubvolumeMenu.DataStore) :
  SubvolumeMenu.value_of
    {| SubvolumeMenu.name := n';
       SubvolumeMenu.mountpoint :=
         default VNone (SubvolumeMenu.value_of store !! "mountpoint");
       SubvolumeMenu.options :=
         default VNone (SubvolumeMenu.value_of store !! "options") |}
  = SubvolumeMenu.value_of store.
Proof.
  rewrite value_of_mountpoint, value_of_options.
  unfold SubvolumeMenu.value_of.
  cbn [SubvolumeMenu.mountpoint SubvolumeMenu.options].
  destruct (truthy (SubvolumeMenu.mountpoint store)) eqn:Hmp,
           (truthy (SubvolumeMenu.options store)) eqn:Hopt;
    cbn [default from_option id truthy]; now rewrite ?Hmp, ?Hopt.
Qed.

(** One unchanged session on the entry [(k, v)], when the editor opens. *)
Lemma exec_action_untouched_once (gettext : string -> string)
    (d : odict) (k : string) (v : PyVal) (act : option string)
    (menu : SubvolumeMenu.t) :
  SubvolumeList.action_is act (gettext "Delete") = false →
  SubvolumeList.action_is act (gettext "Add") = false →
  SubvolumeMenu.__init__ (Some [(k, v)]) act = Return menu →
  let v' := if String.eqb k "" then v
            else VDict (SubvolumeMenu.value_of (SubvolumeMenu.ds menu)) in
  SubvolumeMenu.name (SubvolumeMenu.ds menu) = Some k
  ∧ SubvolumeList.exec_action gettext untouched
      {| SubvolumeList.data := d; SubvolumeList.target := Some [(k, v)];
         SubvolumeList.action := act |}
    = (Return true,
       {| SubvolumeList.data := od_set k v' d;
          SubvolumeList.target := Some [(k, v')];
          SubvolumeList.action := act |}).
Proof.
  intros Hdel Hadd Hinit v'.
  assert (Hname : SubvolumeMenu.name (SubvolumeMenu.ds menu) = Some k).
  { revert Hinit. unfold SubvolumeMenu.__init__.
    cbn [mbind outcome_mbind].
    destruct (isinstance_str v);
      [cbn [outcome_bind mret outcome_ret]; now intros [= <-]|].
    destruct (py_get v "mountpoint" VNone); cbn [outcome_bind]; try discriminate.
    destruct (py_get v "options" VNone);
      cbn [outcome_bind mret outcome_ret]; try discriminate.
    now intros [= <-]. }
  split; [exact Hname|].
  destruct (init_returns _ _ _ Hinit) as (Hdata & Haction & Hcancel).
  unfold SubvolumeList.exec_action.
  cbn [SubvolumeList.action SubvolumeList.target SubvolumeList.data].
  rewrite Hdel, Hadd.
  cbn [SubvolumeList.action SubvolumeList.target SubvolumeList.data].
  subst v'. destruct (String.eqb_spec k "") as [Hk|Hk].
  - rewrite (edit_aborted untouched (Some [(k, v)]) act menu Hinit).
    + reflexivity.
    + right. unfold untouched. cbn [fst]. rewrite Hname. cbn.
      now rewrite Hk.
  - rewrite (edit_committed untouched [(k, v)] act menu
               (SubvolumeMenu.ds menu) VNone k Hinit).
    + cbn [od_set]. rewrite String.eqb_refl. reflexivity.
    + unfold untouched. now rewrite Hcancel.
    + reflexivity.
    + exact Hname.
    + exact Hk.
Qed.

(** X17.  A session in which nothing is changed is repeated without
    effect: for every action but Delete, running [exec_action] a second
    time on what the first run left gives the same outcome and the same
    list manager.  (The first run may rewrite the entry: a string value
    becomes a mapping, and keys other than the mountpoint and the options
    are dropped.) *)
Theorem exec_action_untouched_idempotent (gettext : string -> string)
    (d : odict) (k : string) (v : PyVal) (act : option string) :
  SubvolumeList.action_is act (gettext "Delete") = false →
  let once :=
    SubvolumeList.exec_action gettext untouched
      {| SubvolumeList.data := d; SubvolumeList.target := Some [(k, v)];
         SubvolumeList.action := act |} in
  SubvolumeList.exec_action gettext untouched (snd once) = once.
Proof.
  intros Hdel once. subst once.
  destruct (SubvolumeList.action_is act (gettext "Add")) eqn:Hadd.
  - (* Add starts from an empty target each time *)
    unfold SubvolumeList.exec_action.
    cbn [SubvolumeList.action SubvolumeList.target SubvolumeList.data].
    rewrite Hdel, Hadd.
    cbn [SubvolumeList.action SubvolumeList.target SubvolumeList.data].
    rewrite (edit_aborted untouched (Some []) act _ (init_empty act))
      by (right; reflexivity).
    cbn [snd SubvolumeList.action SubvolumeList.target SubvolumeList.data
         od_update fold_left].
    rewrite Hdel, Hadd.
    cbn [SubvolumeList.action SubvolumeList.target SubvolumeList.data].
    now rewrite (edit_aborted untouched (Some []) act _ (init_empty act))
      by (right; reflexivity).
  - destruct (SubvolumeMenu.__init__ (Some [(k, v)]) act) as [menu|e|l c]
      eqn:Hinit.
    + destruct (exec_action_untouched_once gettext d k v act menu
                  Hdel Hadd Hinit) as [Hname Hfirst].
      destruct (String.eqb k "") eqn:Hk.
      * rewrite Hfirst. cbn [snd].
        destruct (exec_action_untouched_once gettext (od_set k v d) k v act
                    menu Hdel Hadd Hinit) as [_ Hsecond].
        rewrite Hk in Hsecond. rewrite Hsecond.
        now rewrite od_set_twice.
      * rewrite Hfirst. cbn [snd].
        set (value := SubvolumeMenu.value_of (SubvolumeMenu.ds menu)).
        assert (Hagain :
          SubvolumeMenu.__init__ (Some [(k, VDict value)]) act
          = Return {| SubvolumeMenu.data := Some [(k, VDict value)];
                      SubvolumeMenu.action := act;
                      SubvolumeMenu.ds :=
                        {| SubvolumeMenu.name := Some k;
                           SubvolumeMenu.mountpoint :=
                             default VNone (value !! "mountpoint");
                           SubvolumeMenu.options :=
                             default VNone (value !! "options") |};
                      SubvolumeMenu.cancel_selection := VNone |})
          by reflexivity.
        destruct (exec_action_untouched_once gettext
                    (od_set k (VDict value) d) k (VDict value) act _
                    Hdel Hadd Hagain) as [_ Hsecond].
        rewrite Hk in Hsecond. cbn [SubvolumeMenu.ds] in Hsecond.
        subst value. rewrite value_of_reseeded in Hsecond.
        rewrite Hsecond. now rewrite od_set_twice.
    + unfold SubvolumeList.exec_action.
      cbn [SubvolumeList.action SubvolumeList.target SubvolumeList.data].
      rewrite Hdel, Hadd.
      cbn [SubvolumeList.action SubvolumeList.target SubvolumeList.data].
      unfold SubvolumeList.edit. rewrite Hinit.
      cbn [mbind outcome_mbind outcome_bind snd
           SubvolumeList.action SubvolumeList.target SubvolumeList.data].
      rewrite Hdel, Hadd.
      cbn [SubvolumeList.action SubvolumeList.target SubvolumeList.data].
      now rewrite Hinit.
    + exfalso. revert Hinit. unfold SubvolumeMenu.__init__.
      cbn [mbind outcome_mbind].
      destruct (isinstance_str v); [discriminate|].
      destruct v; discriminate.
Qed.

Lemma exec_action_untouched_idempotent_witness :
  let once :=
    SubvolumeList.exec_action id untouched
      {| SubvolumeList.data := [("root", VStr "/")];
         SubvolumeList.target := Some [("root", VStr "/")];
         SubvolumeList.action := Some "Edit" |} in
  SubvolumeList.exec_action id untouched (snd once) = once.
Proof.
  exact (exec_action_untouched_idempotent id [("root", VStr "/")] "root"
           (VStr "/") (Some "Edit") eq_refl).
Defined.

(** ** reformat: the lines shown for a collection *)

Lemma mapM_Return {A B : Type} (f : A -> Outcome B) (l : list A)
    (ys : list B) :
  mapM f l = Return ys ↔ Forall2 (λ x y, f x = Return y) l ys.
Proof.
  revert ys. induction l as [|x l IH]; intros ys.
  - change (mapM f []) with (Return (@nil B)).
    split; [intros [= <-]; constructor | intros H; now inversion H].
  - change (mapM f (x :: l))
      with (outcome_bind
              (λ y, outcome_bind (λ k, Return (y :: k)) (mapM f l)) (f x)).
    destruct (f x) as [y| |] eqn:Hfx; cbn [outcome_bind].
    + destruct (mapM f l) as [k| |] eqn:Hmap; cbn [outcome_bind].
      * split.
        -- intros [= <-]. constructor; [exact Hfx | now apply IH].
        -- intros H. inversion H as [|? y' ? k' Hy Hk]; subst.
           apply IH in Hk. congruence.
      * split; [discriminate|]. intros H.
        inversion H as [|? y' ? k' Hy Hk]; subst. apply IH in Hk. discriminate.
      * split; [discriminate|]. intros H.
        inversion H as [|? y' ? k' Hy Hk]; subst. apply IH in Hk. discriminate.
    + split; [discriminate|]. intros H. inversion H; congruence.
    + split; [discriminate|]. intros H. inversion H; congruence.
Qed.

Lemma mapM_Return_map {A B : Type} (f : A -> Outcome B) (dflt : B)
    (l : list A) (ys : list B) :
  mapM f l = Return ys →
  ys = List.map (λ x, match f x with Return y => y | _ => dflt end) l.
Proof.
  intros Hmap. apply mapM_Return in Hmap.
  induction Hmap as [|x y l ys Hxy _ IH]; cbn; [reflexivity|].
  now rewrite Hxy, IH.
Qed.

Lemma od_get_entry (k : string) (v : PyVal) (d : odict) :
  NoDup (od_keys d) → (k, v) ∈ d → od_get k d = Some v.
Proof.
  unfold od_keys. induction d as [|[k' v'] d IH]; cbn.
  - intros _ Hin. now apply elem_of_nil in Hin.
  - intros Hnd Hin. apply NoDup_cons in Hnd as [Hfresh Hnd].
    apply elem_of_cons in Hin as [[= -> ->] | Hin].
    + now rewrite String.eqb_refl.
    + destruct (String.eqb_spec k' k) as [->|Hne]; [|now apply IH].
      destruct Hfresh. apply list_elem_of_fmap. now exists (k, v).
Qed.

Lemma od_get_elem (k : string) (v : PyVal) (d : odict) :
  od_get k d = Some v → (k, v) ∈ d.
Proof.
  induction d as [|[k' v'] d IH]; cbn; [discriminate|].
  destruct (String.eqb_spec k' k) as [->|Hne].
  - intros [= ->]. apply elem_of_cons. now left.
  - intros Hget. apply elem_of_cons. right. now apply IH.
Qed.

Lemma od_keys_Permutation (d1 d2 : odict) :
  d1 ≡ₚ d2 → od_keys d1 ≡ₚ od_keys d2.
Proof. intros Hperm. unfold od_keys. now apply Permutation_map. Qed.

Lemma od_get_Permutation (k : string) (d1 d2 : odict) :
  NoDup (od_keys d1) → d1 ≡ₚ d2 → od_get k d1 = od_get k d2.
Proof.
  intros Hnd Hperm.
  assert (Hnd2 : NoDup (od_keys d2))
    by now rewrite <- (od_keys_Permutation d1 d2 Hperm).
  destruct (od_get k d1) as [v|] eqn:Hget.
  - symmetry. apply od_get_entry; [exact Hnd2|].
    rewrite <- Hperm. now apply od_get_elem.
  - symmetry. apply od_get_None_keys.
    rewrite <- (od_keys_Permutation d1 d2 Hperm).
    now apply od_get_None_keys.
Qed.

Section ReformatFacts.

Variable gettext : string -> string.
Variable format : string -> PyVal -> Outcome string.
Variable join : string -> PyVal -> Outcome string.

(** X18.  An entry in the old form, a mountpoint given as a string that is
    not empty, and the same entry as a mapping that holds only that
    mountpoint are shown alike: the same line, or the same error of
    [format]. *)
Theorem presentation_string_as_mapping (key s : string) :
  s ≠ "" →
  SubvolumeList.presentation gettext format join key (VStr s)
  = SubvolumeList.presentation gettext format join key
      (VDict {[ "mountpoint" := VStr s ]}).
Proof.
  intros Hs. unfold SubvolumeList.presentation.
  destruct (format (gettext " Subvolume :{:16}") (VStr key)) as [text| |];
    [|reflexivity..].
  cbn [isinstance_str py_get py_getitem mbind outcome_mbind outcome_bind].
  rewrite lookup_singleton_eq, lookup_singleton_ne by discriminate.
  cbn [default from_option id truthy].
  apply String.eqb_neq in Hs. rewrite Hs.
  cbn [negb mbind outcome_mbind outcome_bind].
  now destruct (format (gettext " mounted at {:16}") (VStr s)).
Qed.

(** X19.  When [reformat] returns, it returns one line for each entry of
    the collection, the lines being those of [presentation] for the
    entries, in ascending order. *)
Theorem reformat_sorted_lines (self : SubvolumeList.t) (lines : list string) :
  NoDup (od_keys (SubvolumeList.data self)) →
  SubvolumeList.reformat gettext format join self = Return lines →
  ∃ shown,
    Forall2 (λ entry line,
               SubvolumeList.presentation gettext format join
                 (fst entry) (snd entry) = Return line)
            (SubvolumeList.data self) shown
    ∧ lines ≡ₚ shown
    ∧ StronglySorted String.le lines
    ∧ length lines = length (SubvolumeList.data self).
Proof.
  intros Hnd. unfold SubvolumeList.reformat.
  cbn [mbind outcome_mbind].
  destruct (mapM _ (od_keys (SubvolumeList.data self))) as [shown| |] eqn:Hmap;
    cbn [outcome_bind mret outcome_ret]; [|discriminate..].
  intros [= <-]. exists shown.
  apply mapM_Return in Hmap. unfold od_keys in Hmap.
  apply Forall2_fmap_l in Hmap.
  assert (Hlen : length shown = length (SubvolumeList.data self))
    by (symmetry; exact (Forall2_length _ _ _ Hmap)).
  split; [|split; [|split]].
  - apply Forall2_same_length_lookup. split; [now symmetry|].
    intros i [k v] line Hentry Hline.
    pose proof (Forall2_lookup_lr _ _ _ _ _ _ Hmap Hentry Hline) as Hpres.
    cbn in Hpres. unfold od_getitem in Hpres.
    rewrite (od_get_entry k v _ Hnd) in Hpres
      by (eapply list_elem_of_lookup_2; exact Hentry).
    exact Hpres.
  - apply merge_sort_Permutation.
  - apply StronglySorted_merge_sort; apply _.
  - now rewrite merge_sort_Permutation.
Qed.

(** X20.  The lines do not depend on the order in which the entries were
    inserted: two collections with the same entries, for which [reformat]
    returns, give the same list of lines. *)
Theorem reformat_order_independent (self1 self2 : SubvolumeList.t)
    (lines1 lines2 : list string) :
  NoDup (od_keys (SubvolumeList.data self1)) →
  SubvolumeList.data self1 ≡ₚ SubvolumeList.data self2 →
  SubvolumeList.reformat gettext format join self1 = Return lines1 →
  SubvolumeList.reformat gettext format join self2 = Return lines2 →
  lines1 = lines2.
Proof.
  intros Hnd Hperm. unfold SubvolumeList.reformat.
  cbn [mbind outcome_mbind].
  destruct (mapM _ (od_keys (SubvolumeList.data self1))) as [shown1| |]
    eqn:Hmap1; cbn [outcome_bind mret outcome_ret]; [|discriminate..].
  destruct (mapM _ (od_keys (SubvolumeList.data self2))) as [shown2| |]
    eqn:Hmap2; cbn [outcome_bind mret outcome_ret]; [|discriminate..].
  intros [= <-] [= <-].
  apply (mapM_Return_map _ "") in Hmap1, Hmap2.
  apply (StronglySorted_unique String.le);
    [apply StronglySorted_merge_sort; apply _..|].
  rewrite !merge_sort_Permutation, Hmap1, Hmap2.
  etransitivity;
    [|apply Permutation_map, (od_keys_Permutation _ _ Hperm)].
  apply eq_subrelation; [apply _|]. apply map_ext. intros x.
  unfold od_getitem. now rewrite (od_get_Permutation x _ _ Hnd Hperm).
Qed.

End ReformatFacts.

Lemma presentation_string_as_mapping_witness :
  SubvolumeList.presentation id plain_format plain_join "root" (VStr "/")
  = SubvolumeList.presentation id plain_format plain_join "root"
      (VDict {[ "mountpoint" := VStr "/" ]}).
Proof.
  refine (presentation_string_as_mapping id plain_format plain_join
            "root" "/" _).
  discriminate.
Defined.

Lemma reformat_sorted_lines_witness :
  ∃ shown,
    Forall2 (λ entry line,
               SubvolumeList.presentation id plain_format plain_join
                 (fst entry) (snd entry) = Return line)
            [("root", VStr "/"); ("home", VDict {[ "mountpoint" := VStr "/home" ]})]
            shown
    ∧ [" Subvolume :{:16}home mounted at {:16}/home";
       " Subvolume :{:16}root mounted at {:16}/"] ≡ₚ shown.
Proof.
  destruct (reformat_sorted_lines id plain_format plain_join
              {| SubvolumeList.data :=
                   [("root", VStr "/");
                    ("home", VDict {[ "mountpoint" := VStr "/home" ]})];
                 SubvolumeList.target := None;
                 SubvolumeList.action := None |}
              [" Subvolume :{:16}home mounted at {:16}/home";
               " Subvolume :{:16}root mounted at {:16}/"])
    as (shown & Hshown & Hperm & _).
  - unfold od_keys. cbn. apply NoDup_cons. split.
    + rewrite elem_of_cons, elem_of_nil. intros [[=] | []].
    + apply NoDup_singleton.
  - reflexivity.
  - exists shown. split; [exact Hshown | exact Hperm].
Defined.

Lemma reformat_order_independent_witness :
  [" Subvolume :{:16}home mounted at {:16}/home";
   " Subvolume :{:16}root mounted at {:16}/"]
  = [" Subvolume :{:16}home mounted at {:16}/home";
     " Subvolume :{:16}root mounted at {:16}/"].
Proof.
  refine (reformat_order_independent id plain_format plain_join
            {| SubvolumeList.data := [("root", VStr "/"); ("home", VStr "/home")];
               SubvolumeList.target := None; SubvolumeList.action := None |}
            {| SubvolumeList.data := [("home", VStr "/home"); ("root", VStr "/")];
               SubvolumeList.target := None; SubvolumeList.action := None |}
            _ _ _ _ eq_refl eq_refl).
  - unfold od_keys. cbn. apply NoDup_cons. split.
    + rewrite elem_of_cons, elem_of_nil. intros [[=] | []].
    + apply NoDup_singleton.
  - cbn. apply perm_swap.
Defined.

Lemma exec_action_add_aborted_witness :
  let store := {| SubvolumeMenu.name := Some "home";
                  SubvolumeMenu.mountpoint := VStr "/home";
                  SubvolumeMenu.options := VNone |} in
  SubvolumeList.exec_action id (cancelled store)
    {| SubvolumeList.data := [("root", VStr "/")];
       SubvolumeList.target := None;
       SubvolumeList.action := Some "Add" |}
  = (Return true,
     {| SubvolumeList.data := [("root", VStr "/")];
        SubvolumeList.target := Some [];
        SubvolumeList.action := Some "Add" |}).
Proof.
  intros store.
  exact (exec_action_add_aborted id (cancelled store) [("root", VStr "/")]
           None (Some "Add") _ eq_refl eq_refl (init_empty (Some "Add"))
           (or_introl eq_refl)).
Defined.

Lemma exec_action_edit_aborted_witness :
  let store := {| SubvolumeMenu.name := Some "root";
                  SubvolumeMenu.mountpoint := VStr "/mnt";
                  SubvolumeMenu.options := VNone |} in
  SubvolumeList.exec_action id (cancelled store)
    {| SubvolumeList.data := [("root", VStr "/")];
       SubvolumeList.target := Some [("root", VStr "/")];
       SubvolumeList.action := Some "Edit" |}
  = (Return true,
     {| SubvolumeList.data := [("root", VStr "/")];
        SubvolumeList.target := Some [("root", VStr "/")];
        SubvolumeList.action := Some "Edit" |}).
Proof.
  intros store.
  exact (exec_action_edit_aborted id (cancelled store) [("root", VStr "/")]
           "root" (VStr "/") (Some "Edit") _ eq_refl eq_refl eq_refl eq_refl
           (or_introl eq_refl)).
Defined.
